(** * crop_logo.py: cropping a logo to the bounding box of its content

    A shallow embedding of [scripts/crop_logo.py] and of the part of the
    Pillow imaging library the script calls ([Image.open], [Image.convert],
    [Image.getbbox], [Image.crop], [Image.save]), followed by the
    properties of the cropper. *)

From stdpp Require Import base option list strings gmap pretty.
From Stdlib Require Import Strings.Ascii Strings.Byte.

Local Open Scope nat_scope.

(** ** Exceptions

    The exceptions that the library, the file system and [print] raise to
    the script, all of them subclasses of Python's [Exception]. *)

Inductive exn :=
| FileNotFoundError (filename : string)
| PermissionError (filename : string)
| UnidentifiedImageError (filename : string)
| DecompressionBombError (pixels limit : N)
| ValueError (msg : string)
| KeyError (key : string)
| OSError (msg : string)
| UnicodeEncodeError (msg : string).

(** [repr] of a string without quotes, backslashes or control characters. *)
Definition repr (s : string) : string := "'" +:+ s +:+ "'".

(** [str(e)], the text that an f-string shows for the exception. *)
Definition str_exn (e : exn) : string :=
  match e with
  | FileNotFoundError f => "[Errno 2] No such file or directory: " +:+ repr f
  | PermissionError f => "[Errno 13] Permission denied: " +:+ repr f
  | UnidentifiedImageError f => "cannot identify image file " +:+ repr f
  | DecompressionBombError n lim =>
      "Image size (" +:+ pretty n +:+ " pixels) exceeds limit of " +:+ pretty lim
      +:+ " pixels, could be decompression bomb DOS attack."
  | ValueError msg => msg
  | KeyError key => repr key
  | OSError msg => msg
  | UnicodeEncodeError msg => msg
  end.

(** ** The imaging library *)

Module PIL.

(** The image modes of the model: 8-bit greyscale, greyscale with alpha,
    palette, true colour, true colour with alpha, and, as [Mode1] and
    [ModeI], the library's modes 1 (one bit per pixel) and I (a signed
    32-bit integer per pixel). The modes with 16-bit, floating-point or
    CMYK pixels are outside the model. *)
Inductive mode := L | LA | P | RGB | RGBA | Mode1 | ModeI.

#[global] Instance mode_eq_dec : EqDecision mode.
Proof. solve_decision. Defined.

(** A band value is a Python int; the library stores it in 8 bits. *)
Definition band := Z.

(** The value of [getpixel] on an RGBA image. *)
Record rgba := Rgba { red : band; green : band; blue : band; alpha : band }.
Arguments Rgba (_ _ _ _)%_Z_scope.

(** The pixel store of an image: [xsize], [ysize] and the rows
    [image[y][x]]. *)
Record raster (px : Type) := Raster {
  xsize : nat;
  ysize : nat;
  rows : list (list px)
}.
Arguments Raster {px} _ _ _.
Arguments xsize {px} _.
Arguments ysize {px} _.
Arguments rows {px} _.

(** An image is its mode together with the pixel store of that mode. An
    [L] or [RGB] image may carry the colour key of [info] entry [transparency];
    a [P] image carries its palette, whose entries hold an alpha once the
    image is loaded. A pixel of mode 1 is set (255) or not (0); a pixel of
    mode I is any integer. Images of mode 1 or I that carry a colour key
    are outside the model. *)
Inductive Image :=
| ImageL (transparency : option band) (im : raster band)
| ImageLA (im : raster (band * band))
| ImageP (palette : list rgba) (im : raster band)
| ImageRGB (transparency : option (band * band * band))
           (im : raster (band * band * band))
| ImageRGBA (im : raster rgba)
| Image1 (im : raster bool)
| ImageI (im : raster Z).

Definition mode_of (img : Image) : mode :=
  match img with
  | ImageL _ _ => L
  | ImageLA _ => LA
  | ImageP _ _ => P
  | ImageRGB _ _ => RGB
  | ImageRGBA _ => RGBA
  | Image1 _ => Mode1
  | ImageI _ => ModeI
  end.

(** [img.size], a pair (width, height). *)
Definition size (img : Image) : nat * nat :=
  match img with
  | ImageL _ im | ImageP _ im => (xsize im, ysize im)
  | ImageLA im => (xsize im, ysize im)
  | ImageRGB _ im => (xsize im, ysize im)
  | ImageRGBA im => (xsize im, ysize im)
  | Image1 im => (xsize im, ysize im)
  | ImageI im => (xsize im, ysize im)
  end.

Definition width (img : Image) : nat := fst (size img).
Definition height (img : Image) : nat := snd (size img).

Section Raster.
Context {px : Type}.

(** [image[y][x]] inside the extent of the image. *)
Definition pixel_at (im : raster px) (x y : nat) : option px :=
  if bool_decide (x < xsize im ∧ y < ysize im)
  then rows im !! y ≫= (.!! x)
  else None.

Definition map_raster {px'} (f : px → px') (im : raster px) : raster px' :=
  Raster (xsize im) (ysize im) ((λ row : list px, f <$> row) <$> rows im).

(** [ImagingCrop]: the output has the size of the box, negative sizes
    clamped to zero; pixels of the box outside the input are zero. *)
Definition crop_raster (zero : px) (box : nat * nat * nat * nat)
    (im : raster px) : raster px :=
  let '(x0, y0, x1, y1) := box in
  Raster (x1 - x0) (y1 - y0)
    ((λ y, (λ x, default zero (pixel_at im (x0 + x) (y0 + y)))
              <$> seq 0 (x1 - x0))
       <$> seq 0 (y1 - y0)).
End Raster.

(** *** The bounding box of the non-zero region ([ImagingGetBBox]) *)

Section GetBBox.
(** [has_data x y] is the test [image[y][x] & mask] of the scan. *)
Variable has_data : nat → nat → bool.
Variables xs ys : nat.

(** One pixel of a row: widen [bbox[0]] and [bbox[2]]. *)
Definition scan_pixel (y : nat) (st : bool * nat * nat) (x : nat)
    : bool * nat * nat :=
  let '(found, b0, b2) := st in
  if has_data x y
  then (true, (if x <? b0 then x else b0), (if b2 <=? x then S x else b2))
  else (found, b0, b2).

(** One row: when it has data, set [bbox[1]] the first time and move
    [bbox[3]] below it. [bbox[1]] starts as -1, here [None]. *)
Definition scan_row (st : nat * option nat * nat * nat) (y : nat)
    : nat * option nat * nat * nat :=
  let '(b0, b1, b2, b3) := st in
  let '(found, b0', b2') := foldl (scan_pixel y) (false, b0, b2) (seq 0 xs) in
  if found then (b0', Some (default y b1), b2', S y) else (b0', b1, b2', b3).

(** The box (left, upper, right, lower), or nothing when no pixel has
    data. *)
Definition bbox_scan : option (nat * nat * nat * nat) :=
  let '(b0, b1, b2, b3) := foldl scan_row (xs, None, 0, 0) (seq 0 ys) in
  match b1 with
  | None => None
  | Some b1 => Some (b0, b1, b2, b3)
  end.
End GetBBox.


(** *** Pixels that count as content

    [getbbox(alpha_only=True)]: for a mode with an alpha band and
    [alpha_only] set the scan looks at the alpha band alone, for a mode
    without alpha (and for [alpha_only] unset) at all bands. *)

Definition nonzero (v : band) : bool := negb (v =? 0)%Z.

Definition data_L (v : band) : bool := nonzero v.

Definition data_LA (alpha_only : bool) (p : band * band) : bool :=
  if alpha_only then nonzero p.2 else nonzero p.1 || nonzero p.2.

Definition data_RGB (p : band * band * band) : bool :=
  let '(r, g, b) := p in nonzero r || nonzero g || nonzero b.

Definition data_RGBA (alpha_only : bool) (p : rgba) : bool :=
  if alpha_only then nonzero (alpha p)
  else nonzero (red p) || nonzero (green p) || nonzero (blue p)
       || nonzero (alpha p).

(** Does the scan count the pixel at (x, y) as content? *)
Definition content_at (alpha_only : bool) (img : Image) (x y : nat) : bool :=
  match img with
  | ImageL _ im | ImageP _ im => from_option data_L false (pixel_at im x y)
  | ImageLA im => from_option (data_LA alpha_only) false (pixel_at im x y)
  | ImageRGB _ im => from_option data_RGB false (pixel_at im x y)
  | ImageRGBA im => from_option (data_RGBA alpha_only) false (pixel_at im x y)
  | Image1 im => from_option id false (pixel_at im x y)
  | ImageI im => from_option nonzero false (pixel_at im x y)
  end.

(** [img.getbbox(alpha_only=...)] *)
Definition getbbox (alpha_only : bool) (img : Image)
    : option (nat * nat * nat * nat) :=
  bbox_scan (content_at alpha_only img) (width img) (height img).

(** *** Conversion to RGBA ([img.convert('RGBA')])

    Grey and colour values are copied and the alpha is 255, or 0 on the
    pixels that equal the colour key; a palette index is replaced
    by its palette entry (an unset entry is opaque black); a bit becomes
    black or white; an integer is clipped to the range of a band. *)

Definition key_alpha {K} `{EqDecision K} (key : option K) (p : K) : band :=
  match key with
  | Some k => if decide (p = k) then 0%Z else 255%Z
  | None => 255%Z
  end.

Definition L_to_RGBA (key : option band) (v : band) : rgba :=
  Rgba v v v (key_alpha key v).

Definition LA_to_RGBA (p : band * band) : rgba := Rgba p.1 p.1 p.1 p.2.

Definition P_to_RGBA (palette : list rgba) (v : band) : rgba :=
  default (Rgba 0 0 0 255) (palette !! Z.to_nat v).

Definition RGB_to_RGBA (key : option (band * band * band))
    (p : band * band * band) : rgba :=
  let '(r, g, b) := p in Rgba r g b (key_alpha key p).

Definition bit_to_RGBA (b : bool) : rgba :=
  let v := if b then 255%Z else 0%Z in Rgba v v v 255.

Definition clip8 (v : Z) : band :=
  if (v <=? 0)%Z then 0%Z else if (255 <=? v)%Z then 255%Z else v.

Definition I_to_RGBA (v : Z) : rgba :=
  let c := clip8 v in Rgba c c c 255.

Definition convert_RGBA (img : Image) : Image :=
  match img with
  | ImageL key im => ImageRGBA (map_raster (L_to_RGBA key) im)
  | ImageLA im => ImageRGBA (map_raster LA_to_RGBA im)
  | ImageP palette im => ImageRGBA (map_raster (P_to_RGBA palette) im)
  | ImageRGB key im => ImageRGBA (map_raster (RGB_to_RGBA key) im)
  | ImageRGBA im => ImageRGBA im
  | Image1 im => ImageRGBA (map_raster bit_to_RGBA im)
  | ImageI im => ImageRGBA (map_raster I_to_RGBA im)
  end.

(** *** What a pixel shows

    The colour, as (r, g, b), and the opacity that the pixel at (x, y)
    stands for, read off the image as it is: a grey level is the colour
    with three equal components, a palette index the colour of its entry
    in the palette, a set bit white; a pixel of a mode without alpha band
    is opaque, unless it equals the colour key of the image. *)

Definition palette_colour (palette : list rgba) (i : band)
    : band * band * band :=
  match palette !! Z.to_nat i with
  | Some c => (red c, green c, blue c)
  | None => (0, 0, 0)%Z
  end.

Definition palette_alpha (palette : list rgba) (i : band) : band :=
  match palette !! Z.to_nat i with
  | Some c => alpha c
  | None => 255%Z
  end.

Definition opacity {K} `{EqDecision K} (key : option K) (p : K) : band :=
  if decide (key = Some p) then 0%Z else 255%Z.

Definition colour_at (img : Image) (x y : nat) : option (band * band * band) :=
  match img with
  | ImageL _ im => (λ v, (v, v, v)) <$> pixel_at im x y
  | ImageLA im => (λ p, (p.1, p.1, p.1)) <$> pixel_at im x y
  | ImageP palette im => palette_colour palette <$> pixel_at im x y
  | ImageRGB _ im => pixel_at im x y
  | ImageRGBA im => (λ c, (red c, green c, blue c)) <$> pixel_at im x y
  | Image1 im =>
      (λ b : bool, if b then (255, 255, 255)%Z else (0, 0, 0)%Z)
        <$> pixel_at im x y
  | ImageI im => (λ v, (v, v, v)) <$> pixel_at im x y
  end.

Definition alpha_at (img : Image) (x y : nat) : option band :=
  match img with
  | ImageL key im => opacity key <$> pixel_at im x y
  | ImageLA im => snd <$> pixel_at im x y
  | ImageP palette im => palette_alpha palette <$> pixel_at im x y
  | ImageRGB key im => opacity key <$> pixel_at im x y
  | ImageRGBA im => alpha <$> pixel_at im x y
  | Image1 im => (λ _, 255%Z) <$> pixel_at im x y
  | ImageI im => (λ _, 255%Z) <$> pixel_at im x y
  end.

(** *** Cropping ([img.crop(box)]) *)

Definition MAX_IMAGE_PIXELS : N := 89478485.

(** [_decompression_bomb_check]: an error above twice the limit (between
    the limit and twice the limit only a warning, which prints nothing on
    standard output). *)
Definition decompression_bomb_check (sz : nat * nat) : option exn :=
  let pixels := (N.of_nat (max 1 sz.1) * N.of_nat (max 1 sz.2))%N in
  if (2 * MAX_IMAGE_PIXELS <? pixels)%N
  then Some (DecompressionBombError pixels (2 * MAX_IMAGE_PIXELS))
  else None.

Definition crop_core (box : nat * nat * nat * nat) (img : Image) : Image :=
  match img with
  | ImageL key im => ImageL key (crop_raster 0%Z box im)
  | ImageLA im => ImageLA (crop_raster (0%Z, 0%Z) box im)
  | ImageP palette im => ImageP palette (crop_raster 0%Z box im)
  | ImageRGB key im => ImageRGB key (crop_raster (0%Z, 0%Z, 0%Z) box im)
  | ImageRGBA im => ImageRGBA (crop_raster (Rgba 0 0 0 0) box im)
  | Image1 im => Image1 (crop_raster false box im)
  | ImageI im => ImageI (crop_raster 0%Z box im)
  end.

Definition crop (img : Image) (box : nat * nat * nat * nat) : exn + Image :=
  let '(x0, y0, x1, y1) := box in
  if x1 <? x0 then inl (ValueError "Coordinate 'right' is less than 'left'")
  else if y1 <? y0 then inl (ValueError "Coordinate 'lower' is less than 'upper'")
  else match decompression_bomb_check (x1 - x0, y1 - y0) with
       | Some e => inl e
       | None => inr (crop_core box img)
       end.

End PIL.

(** ** The world of a run: files and standard output *)

Record world := World {
  files : gmap string (list byte);   (* the content of each existing file *)
  readable : string → bool;          (* may the path be opened with "rb"? *)
  writable : string → bool;          (* may the path be opened with "w+b"? *)
  stdout : list string               (* the lines printed so far *)
}.

Definition set_files (f : gmap string (list byte) → gmap string (list byte))
    (w : world) : world :=
  World (f (files w)) (readable w) (writable w) (stdout w).

Definition add_stdout (line : string) (w : world) : world :=
  World (files w) (readable w) (writable w) (stdout w ++ [line]).

(** A statement either returns a value or raises, and changes the world. *)
Inductive result (A : Type) :=
| Return (a : A)
| Raise (e : exn).
Arguments Return {A} _.
Arguments Raise {A} _.

Definition M (A : Type) : Type := world → result A * world.

#[global] Instance M_ret : MRet M := λ A a w, (Return a, w).

#[global] Instance M_bind : MBind M := λ A B f m w,
  match m w with
  | (Return a, w') => f a w'
  | (Raise e, w') => (Raise e, w')
  end.

Definition raise {A} (e : exn) : M A := λ w, (Raise e, w).

(** [try: body except Exception as e: handler(e)] *)
Definition try_except {A} (body : M A) (handler : exn → M A) : M A := λ w,
  match body w with
  | (Return a, w') => (Return a, w')
  | (Raise e, w') => handler e w'
  end.

(** Standard output. [encode_error text] is [None] when the encoding of
    the stream can encode [text]; otherwise it is the text of the
    UnicodeEncodeError that writing [text] raises. *)
Record Console := {
  encode_error : string → option string
}.

(** [print(line)]: the line is written, or nothing is and the call
    raises. *)
Definition print (console : Console) (line : string) : M unit := λ w,
  match encode_error console line with
  | None => (Return (), add_stdout line w)
  | Some msg => (Raise (UnicodeEncodeError msg), w)
  end.

(** [open(filename, "rb").read()] *)
Definition read_binary (filename : string) : M (list byte) := λ w,
  match files w !! filename with
  | None => (Raise (FileNotFoundError filename), w)
  | Some data =>
      if readable w filename then (Return data, w)
      else (Raise (PermissionError filename), w)
  end.

(** [os.path.exists(filename)] *)
Definition path_exists (filename : string) : M bool := λ w,
  (Return (bool_decide (is_Some (files w !! filename))), w).

(** [open(filename, "w+b")]: the file is created, or emptied when it
    exists. *)
Definition open_truncate (filename : string) : M unit := λ w,
  if writable w filename then (Return (), set_files <[filename := []]> w)
  else (Raise (PermissionError filename), w).

(** [fp.write(data)] on a file just opened with "w+b", then [fp.close()]. *)
Definition write_binary (filename : string) (data : list byte) : M unit := λ w,
  (Return (), set_files <[filename := data]> w).

(** [os.remove(filename)] *)
Definition os_remove (filename : string) : M unit := λ w,
  (Return (), set_files (delete filename) w).

(** ** Reading and writing images *)

(** What [Image.open] returns: the header of the file is read, so mode
    and size are known; the pixels are read by [load], at the first use
    of the image, which yields the image or raises. An image made in
    memory, as by [convert], is loaded. *)
Inductive ImageFile :=
| Loads (img : PIL.Image)
| Fails (mode : PIL.mode) (size : nat * nat) (e : exn).

Definition file_mode (f : ImageFile) : PIL.mode :=
  match f with
  | Loads img => PIL.mode_of img
  | Fails mode _ _ => mode
  end.

Definition file_size (f : ImageFile) : nat * nat :=
  match f with
  | Loads img => PIL.size img
  | Fails _ size _ => size
  end.

(** [img.load()] *)
Definition load (f : ImageFile) : M PIL.Image :=
  match f with
  | Loads img => mret img
  | Fails _ _ e => raise e
  end.

(** [img.convert('RGBA')], [img.getbbox()] and [img.crop(box)] load the
    image first. *)
Definition Image_convert_RGBA (f : ImageFile) : M ImageFile :=
  img ← load f; mret (Loads (PIL.convert_RGBA img)).

Definition Image_getbbox (f : ImageFile) : M (option (nat * nat * nat * nat)) :=
  img ← load f; mret (PIL.getbbox true img).

Definition Image_crop (f : ImageFile) (box : nat * nat * nat * nat)
    : M PIL.Image :=
  img ← load f;
  match PIL.crop img box with
  | inl e => raise e
  | inr cropped => mret cropped
  end.

(** The decoders and encoders of the library are registered by its
    plugins; they are parameters of the development, as is the encoding
    of standard output. *)
Record Registry := {
  (** what the first plugin that accepts the header of the data makes of
      the data, if any plugin does *)
  OPEN : list byte → option ImageFile;
  (** [os.path.splitext(filename)[1].lower()] *)
  splitext_lower : string → string;
  (** the format registered for a file extension *)
  EXTENSION : string → option string;
  (** the encoder of a format: the bytes it writes and, when it fails, the
      exception it raises *)
  SAVE : string → option (PIL.Image → list byte * option exn)
}.

Section Cropper.
Variable registry : Registry.
Variable console : Console.

(** [Image.open(fp)]: a driver identifies the file only with a
    positive width and height, and the size is checked against the
    decompression-bomb limit. *)
Definition Image_open (fp : string) : M ImageFile :=
  data ← read_binary fp;
  match OPEN registry data with
  | Some im =>
      if bool_decide (0 < (file_size im).1 ∧ 0 < (file_size im).2)
      then match PIL.decompression_bomb_check (file_size im) with
           | Some e => raise e
           | None => mret im
           end
      else raise (UnidentifiedImageError fp)
  | None => raise (UnidentifiedImageError fp)
  end.

(** [im.save(fp)]: the format comes from the extension of the file name;
    the file is opened (and emptied) before the encoder runs; when the
    encoder fails, a file that [save] created is removed again. *)
Definition Image_save (im : PIL.Image) (fp : string) : M unit :=
  let ext := splitext_lower registry fp in
  match EXTENSION registry ext with
  | None => raise (ValueError ("unknown file extension: " +:+ ext))
  | Some format =>
      match SAVE registry format with
      | None => raise (KeyError format)
      | Some save_handler =>
          present ← path_exists fp;
          let created := negb present in
          open_truncate fp;;
          match save_handler im with
          | (data, None) => write_binary fp data
          | (data, Some e) =>
              write_binary fp data;;
              (if created then os_remove fp else mret ());;
              raise e
          end
      end
  end.

(** [str] of a size tuple. *)
Definition str_size (sz : nat * nat) : string :=
  "(" +:+ pretty sz.1 +:+ ", " +:+ pretty sz.2 +:+ ")".

(** ** The script *)

Definition crop_whitespace (image_path output_path : string) : M unit :=
  (* Open the image *)
  img ← Image_open image_path;
  (* Convert to RGBA if not already *)
  img ← (if decide (file_mode img ≠ PIL.RGBA)
         then Image_convert_RGBA img else mret img);
  (* Get the bounding box of non-white pixels *)
  (* Create a mask of non-white pixels *)
  bbox ← Image_getbbox img;
  match bbox with
  | Some bbox =>
      (* Crop the image to the bounding box *)
      cropped ← Image_crop img bbox;
      (* Save the cropped image *)
      Image_save cropped output_path;;
      print console "✅ Logo cropped successfully!";;
      print console ("   Original size: " +:+ str_size (file_size img));;
      print console ("   Cropped size: " +:+ str_size (PIL.size cropped));;
      print console ("   Saved to: " +:+ output_path)
  | None => print console "❌ Could not find content to crop"
  end.

Definition input_path : string := "scripts/public/hsbc_logo.png".
Definition output_path : string := "scripts/public/hsbc_logo.png".

Definition main : M unit :=
  try_except (crop_whitespace input_path output_path)
    (λ e,
       print console ("❌ Error: " +:+ str_exn e);;
       print console
         (String "010"%char "💡 Make sure Pillow is installed: pip install Pillow")).

(** The exit status of the interpreter: 0 when the script runs to its
    end, 1 when an exception leaves it. *)
Definition exit_status (r : result unit) : Z :=
  match r with
  | Return _ => 0
  | Raise _ => 1
  end.

(** ** Vocabulary of the properties *)

(** The encoder registered for the extension of [fp] encodes [im] as
    [data]. *)
Definition encodes (fp : string) (im : PIL.Image) (data : list byte) : Prop :=
  ∃ format save_handler,
    EXTENSION registry (splitext_lower registry fp) = Some format ∧
    SAVE registry format = Some save_handler ∧
    save_handler im = (data, None).

(** The run prints that it found no content, and does nothing else. *)
Definition reports_no_content (image_path output_path : string) (w : world)
    : Prop :=
  crop_whitespace image_path output_path w
  = (Return (), add_stdout "❌ Could not find content to crop" w).

(** The bounding box that a run computes, when it gets that far. *)
Definition bbox_of_run (image_path : string) (w : world)
    : result (option (nat * nat * nat * nat)) :=
  fst ((f ← Image_open image_path;
        img ← load f;
        mret (PIL.getbbox true (PIL.convert_RGBA img))) w).

(** Standard output can encode the text. *)
Definition prints_fine (text : string) : Prop :=
  encode_error console text = None.

(** The lines of a successful run, and the prints of a list of lines one
    after the other. *)
Definition success_lines (output_path : string) (original cropped : nat * nat)
    : list string :=
  ["✅ Logo cropped successfully!";
   "   Original size: " +:+ str_size original;
   "   Cropped size: " +:+ str_size cropped;
   "   Saved to: " +:+ output_path].

Definition print_all (lines : list string) : M unit :=
  foldr (λ line rest, print console line;; rest) (mret ()) lines.
End Cropper.

(** ** A sample registry

    A registry with one uncompressed format, used to run the script on
    concrete files: a file holds a tag for the mode (3 for RGB, 4 for
    RGBA), the width, the height, and the bands of the pixels row by row.
    It stands in for a lossless format and is registered for the
    extensions .raw and .png. A second format is registered that, like
    JPEG, cannot store an alpha band, and a third that has no encoder. *)

Module Sample.

Definition byte_of_nat (n : nat) : byte := default x00 (Byte.of_N (N.of_nat n)).
Definition nat_of_byte (b : byte) : nat := N.to_nat (Byte.to_N b).
Definition byte_of_band (v : PIL.band) : byte := default x00 (Byte.of_N (Z.to_N v)).
Definition band_of_byte (b : byte) : PIL.band := Z.of_N (Byte.to_N b).

Fixpoint pixels_RGB (body : list byte) : list (PIL.band * PIL.band * PIL.band) :=
  match body with
  | r :: g :: b :: body =>
      (band_of_byte r, band_of_byte g, band_of_byte b) :: pixels_RGB body
  | _ => []
  end.

Fixpoint pixels_RGBA (body : list byte) : list PIL.rgba :=
  match body with
  | r :: g :: b :: a :: body =>
      PIL.Rgba (band_of_byte r) (band_of_byte g) (band_of_byte b) (band_of_byte a)
        :: pixels_RGBA body
  | _ => []
  end.

Definition truncated : exn := OSError "image file is truncated".

(** A file is identified by its tag; its pixels load when the body has
    the length that the header announces. *)
Definition raw_decode (data : list byte) : option ImageFile :=
  match data with
  | tag :: w :: h :: body =>
      let w := nat_of_byte w in
      let h := nat_of_byte h in
      if Byte.eqb tag x03 then
        if bool_decide (length body = 3 * (w * h)) then
          Some (Loads (PIL.ImageRGB None
                  (PIL.Raster w h (reshape (replicate h w) (pixels_RGB body)))))
        else Some (Fails PIL.RGB (w, h) truncated)
      else if Byte.eqb tag x04 then
        if bool_decide (length body = 4 * (w * h)) then
          Some (Loads (PIL.ImageRGBA
                  (PIL.Raster w h (reshape (replicate h w) (pixels_RGBA body)))))
        else Some (Fails PIL.RGBA (w, h) truncated)
      else None
  | _ => None
  end.

Definition bytes_RGB (p : PIL.band * PIL.band * PIL.band) : list byte :=
  let '(r, g, b) := p in [byte_of_band r; byte_of_band g; byte_of_band b].

Definition bytes_RGBA (p : PIL.rgba) : list byte :=
  [byte_of_band (PIL.red p); byte_of_band (PIL.green p);
   byte_of_band (PIL.blue p); byte_of_band (PIL.alpha p)].

Definition raw_encode (img : PIL.Image) : list byte * option exn :=
  match img with
  | PIL.ImageRGB _ im =>
      (x03 :: byte_of_nat (PIL.xsize im) :: byte_of_nat (PIL.ysize im)
           :: flat_map (flat_map bytes_RGB) (PIL.rows im), None)
  | PIL.ImageRGBA im =>
      (x04 :: byte_of_nat (PIL.xsize im) :: byte_of_nat (PIL.ysize im)
           :: flat_map (flat_map bytes_RGBA) (PIL.rows im), None)
  | _ => ([], Some (OSError "cannot write this mode as RAW"))
  end.

Definition no_alpha_encode (img : PIL.Image) : list byte * option exn :=
  match img with
  | PIL.ImageRGB _ im => (fst (raw_encode img), None)
  | _ => ([], Some (OSError "cannot write mode RGBA as JPEG"))
  end.

(** The extension of a lower-case ASCII file name: from its last dot on,
    when no separator follows that dot. *)
Fixpoint has_sep (s : string) : bool :=
  match s with
  | EmptyString => false
  | String c s' => bool_decide (c = "/"%char) || has_sep s'
  end.

Fixpoint splitext (s : string) : string :=
  match s with
  | EmptyString => EmptyString
  | String c s' =>
      match splitext s' with
      | EmptyString =>
          if bool_decide (c = "."%char) && negb (has_sep s') then s
          else EmptyString
      | ext => ext
      end
  end.

Definition registry : Registry := {|
  OPEN := raw_decode;
  splitext_lower := splitext;
  EXTENSION ext :=
    if decide (ext = ".raw") then Some "RAW"
    else if decide (ext = ".png") then Some "RAW"
    else if decide (ext = ".jpg") then Some "JPEG"
    else if decide (ext = ".psd") then Some "PSD"
    else None;
  SAVE format :=
    if decide (format = "RAW") then Some raw_encode
    else if decide (format = "JPEG") then Some no_alpha_encode
    else None
|}.

(** A standard output that can encode every text, as with UTF-8, and one
    that can encode ASCII only. *)
Definition utf8 : Console := {| encode_error _ := None |}.

Fixpoint is_ascii (text : string) : bool :=
  match text with
  | EmptyString => true
  | String (Ascii _ _ _ _ _ _ _ b7) text' => negb b7 && is_ascii text'
  end.

Definition ascii : Console := {|
  encode_error text :=
    if is_ascii text then None
    else Some "'ascii' codec can't encode characters: ordinal not in range(128)"
|}.

(** An image given by a function of the coordinates. *)
Definition tabulate {px} (w h : nat) (f : nat → nat → px) : PIL.raster px :=
  PIL.Raster w h ((λ y, (λ x, f x y) <$> seq 0 w) <$> seq 0 h).

Definition white : PIL.band * PIL.band * PIL.band := (255, 255, 255)%Z.
Definition red : PIL.band * PIL.band * PIL.band := (200, 0, 0)%Z.

(** 200×100 pixels, white except for a 50×30 red rectangle whose top-left
    corner is at (75, 35). *)
Definition logo_200x100 : PIL.Image :=
  PIL.ImageRGB None
    (tabulate 200 100 (λ x y,
       if bool_decide (75 ≤ x < 125 ∧ 35 ≤ y < 65) then red else white)).

(** 3×2 pixels, all of them red. *)
Definition solid_red : PIL.Image :=
  PIL.ImageRGB None (tabulate 3 2 (λ _ _, red)).

(** 3×2 pixels, all of them white and fully transparent. *)
Definition transparent : PIL.Image :=
  PIL.ImageRGBA (tabulate 3 2 (λ _ _, PIL.Rgba 255 255 255 0)).

(** 6×5 pixels, transparent except for an opaque 2×3 block at (3, 1). *)
Definition padded : PIL.Image :=
  PIL.ImageRGBA
    (tabulate 6 5 (λ x y,
       if bool_decide (3 ≤ x < 5 ∧ 1 ≤ y < 4) then PIL.Rgba 200 0 0 255
       else PIL.Rgba 0 0 0 0)).

(** A world in which every path may be opened, with nothing printed yet. *)
Definition world_of (fs : gmap string (list byte)) : world :=
  World fs (λ _, true) (λ _, true) [].

Definition file_of (img : PIL.Image) : list byte := fst (raw_encode img).

(** The image at in.raw, and already a file at out.raw. *)
Definition world_with (img : PIL.Image) : world :=
  world_of {[ "in.raw" := file_of img; "out.raw" := [x00] ]}.


(** 3×2 pixels, all of them black. *)
Definition black : PIL.Image :=
  PIL.ImageRGB None (tabulate 3 2 (λ _ _, (0, 0, 0)%Z)).

(** 6×5 pixels, white except for a red 2×3 block at (3, 1), with white as
    the colour key. *)
Definition keyed : PIL.Image :=
  PIL.ImageRGB (Some white)
    (tabulate 6 5 (λ x y,
       if bool_decide (3 ≤ x < 5 ∧ 1 ≤ y < 4) then red else white)).

(** The same world with no path that may be written. *)
Definition locked (w : world) : world :=
  World (files w) (readable w) (λ _, false) (stdout w).

(** The image at in.raw and nothing else. *)
Definition world_only (img : PIL.Image) : world :=
  world_of {[ "in.raw" := file_of img ]}.

(** The image at in.raw next to another file, after an earlier print. *)
Definition world_busy (img : PIL.Image) : world :=
  World {[ "in.raw" := file_of img; "notes.txt" := [x41] ]}
    (λ _, true) (λ _, true) ["earlier output"].

End Sample.

(** The pixels of a 3×2 image, one by one. *)
Ltac each_pixel_3x2 x y :=
  destruct x as [|[|[|x]]]; [| | |lia];
  (destruct y as [|[|y]]; [| |lia]).

(** ** The bounding-box scan *)

Section GetBBoxFacts.
Variable has_data : nat → nat → bool.
Variables xs ys : nat.

(** The scan of the first [n] pixels of row [y]. *)
Lemma scan_pixels_spec y b0 b2 n found b0' b2' :
  foldl (PIL.scan_pixel has_data y) (false, b0, b2) (seq 0 n) = (found, b0', b2') →
  (found = true ↔ ∃ x, x < n ∧ has_data x y = true) ∧
  (found = false → b0' = b0 ∧ b2' = b2) ∧
  b0' ≤ b0 ∧ b2 ≤ b2' ∧ b2' ≤ max b2 n ∧
  (∀ x, x < n → has_data x y = true → b0' ≤ x < b2') ∧
  (b0' = b0 ∨ (b0' < n ∧ has_data b0' y = true)) ∧
  (b2' = b2 ∨ ∃ x, b2' = S x ∧ x < n ∧ has_data x y = true).
Proof.
  revert found b0' b2'. induction n as [|n IH]; intros found b0' b2' Hscan.
  - simplify_eq/=.
    split; [split; [done|intros (x & Hx & _); lia]|].
    split; [done|]. split; [done|]. split; [done|]. split; [lia|].
    split; [intros; lia|]. split; by left.
  - rewrite seq_S, foldl_snoc in Hscan.
    destruct (foldl _ _ (seq 0 n)) as [[f1 c0] c2] eqn:Hpre.
    destruct (IH _ _ _ eq_refl) as (Hf & Hnf & Hle0 & Hle2 & Hmax & Hin & Hl & Hr).
    simpl in Hscan. destruct (has_data n y) eqn:Hd.
    + simplify_eq.
      split; [split; [intros _; exists n; split; [lia|done] | done]|].
      split; [discriminate|].
      destruct (Nat.ltb_spec n c0) as [Hlt|Hge], (Nat.leb_spec c2 n) as [Hle|Hgt].
      all: split; [lia|]; split; [lia|]; split; [lia|].
      all: split;
        [intros x Hx Hdx; destruct (decide (x = n)) as [->|Hne];
         [lia|assert (c0 ≤ x < c2) by (apply Hin; [lia|done]); lia]|].
      all: split.
      all: try (right; split; [lia|done]).
      all: try (right; exists n; split; [done|split; [lia|done]]).
      all: try (destruct Hl as [->|[? ?]]; [by left|right; split; [lia|done]]).
      all: destruct Hr as [->|(x & -> & ? & ?)]; [by left|];
        right; exists x; split; [done|split; [lia|done]].
    + simplify_eq.
      split.
      { rewrite Hf. split.
        - intros (x & ? & ?). exists x. split; [lia|done].
        - intros (x & Hx & Hdx). destruct (decide (x = n)) as [->|?]; [congruence|].
          exists x. split; [lia|done]. }
      split; [done|]. split; [done|]. split; [done|]. split; [lia|].
      split.
      { intros x Hx Hdx. destruct (decide (x = n)) as [->|?]; [congruence|].
        apply Hin; [lia|done]. }
      split.
      { destruct Hl as [->|[? ?]]; [by left|right; split; [lia|done]]. }
      { destruct Hr as [->|(x & -> & ? & ?)]; [by left|].
        right. exists x. split; [done|split; [lia|done]]. }
Qed.

(** The state of the scan after the first [m] rows. *)
Lemma scan_rows_spec m b0 b1 b2 b3 :
  foldl (PIL.scan_row has_data xs) (xs, None, 0, 0) (seq 0 m) = (b0, b1, b2, b3) →
  match b1 with
  | None =>
      b0 = xs ∧ b2 = 0 ∧ b3 = 0 ∧
      ∀ x y, x < xs → y < m → has_data x y = false
  | Some t =>
      b0 < b2 ≤ xs ∧ t < b3 ≤ m ∧
      (∀ x y, x < xs → y < m → has_data x y = true →
              b0 ≤ x < b2 ∧ t ≤ y < b3) ∧
      (∃ y, t ≤ y < b3 ∧ has_data b0 y = true) ∧
      (∃ x y, b2 = S x ∧ t ≤ y < b3 ∧ has_data x y = true) ∧
      (∃ x, x < xs ∧ has_data x t = true) ∧
      (∃ x y, b3 = S y ∧ x < xs ∧ has_data x y = true)
  end.
Proof.
  revert b0 b1 b2 b3. induction m as [|m IH]; intros b0 b1 b2 b3 Hscan.
  - simplify_eq/=. repeat split; intros; lia.
  - rewrite seq_S, foldl_snoc in Hscan.
    destruct (foldl _ _ (seq 0 m)) as [[[c0 c1] c2] c3] eqn:Hpre.
    specialize (IH _ _ _ _ eq_refl). simpl in Hscan.
    destruct (foldl _ _ (seq 0 xs)) as [[found c0'] c2'] eqn:Hrow.
    apply scan_pixels_spec in Hrow
      as (Hf & Hnf & Hle0 & Hle2 & Hmax & Hin & Hl & Hr).
    destruct found.
    + (* row [m] has data *)
      destruct Hf as [Hf _]. destruct (Hf eq_refl) as (xd & Hxd & Hdd).
      pose proof (Hin _ Hxd Hdd) as Hbd.
      simplify_eq. destruct c1 as [t|]; simpl.
      * destruct IH as (Hb02 & Ht3 & Hsound & Hleft & Hright & Htop & Hbot).
        split; [lia|]. split; [lia|]. split.
        { intros x y Hx Hy Hd. destruct (decide (y = m)) as [->|Hne].
          - pose proof (Hin _ Hx Hd). lia.
          - assert (c0 ≤ x < c2 ∧ t ≤ y < c3) by (apply Hsound; [lia..|done]).
            lia. }
        split.
        { destruct Hl as [->|[? ?]].
          - destruct Hleft as (y & ? & ?). exists y. split; [lia|done].
          - exists m. split; [lia|done]. }
        split.
        { destruct Hr as [->|(x & -> & ? & ?)].
          - destruct Hright as (x & y & -> & ? & ?).
            exists x, y. split; [done|split; [lia|done]].
          - exists x, m. split; [done|split; [lia|done]]. }
        split; [done|].
        exists xd, m. split; [done|split; [lia|done]].
      * destruct IH as (-> & -> & -> & Hnone).
        split; [lia|]. split; [lia|]. split.
        { intros x y Hx Hy Hd. destruct (decide (y = m)) as [->|Hne].
          - pose proof (Hin _ Hx Hd). lia.
          - rewrite Hnone in Hd by lia. discriminate. }
        split.
        { destruct Hl as [->|[? ?]]; [lia|]. exists m. split; [lia|done]. }
        split.
        { destruct Hr as [->|(x & -> & ? & ?)]; [lia|].
          exists x, m. split; [done|split; [lia|done]]. }
        split; [by exists xd|].
        exists xd, m. split; [done|split; [lia|done]].
    + (* row [m] has no data *)
      destruct (Hnf eq_refl) as [-> ->]. simplify_eq.
      assert (Hrow : ∀ x, x < xs → has_data x m = false).
      { intros x Hx. destruct (has_data x m) eqn:Hd; [|done].
        destruct Hf as [_ Hf]. discriminate Hf. by exists x. }
      destruct b1 as [t|].
      * destruct IH as (Hb02 & Ht3 & Hsound & Hleft & Hright & Htop & Hbot).
        split; [done|]. split; [lia|]. split; [|done].
        intros x y Hx Hy Hd. destruct (decide (y = m)) as [->|Hne].
        -- rewrite Hrow in Hd by done. discriminate.
        -- apply Hsound; [lia..|done].
      * destruct IH as (-> & -> & -> & Hnone).
        split; [done|]. split; [done|]. split; [done|].
        intros x y Hx Hy. destruct (decide (y = m)) as [->|Hne].
        -- by apply Hrow.
        -- apply Hnone; lia.
Qed.

(** A box that is found is not empty, lies in the image and holds every
    pixel with data; each of its four sides touches such a pixel. *)
Lemma bbox_scan_Some l t r b :
  PIL.bbox_scan has_data xs ys = Some (l, t, r, b) →
  l < r ≤ xs ∧ t < b ≤ ys ∧
  (∀ x y, x < xs → y < ys → has_data x y = true → l ≤ x < r ∧ t ≤ y < b) ∧
  (∃ y, t ≤ y < b ∧ has_data l y = true) ∧
  (∃ x y, r = S x ∧ t ≤ y < b ∧ has_data x y = true) ∧
  (∃ x, x < xs ∧ has_data x t = true) ∧
  (∃ x y, b = S y ∧ x < xs ∧ has_data x y = true).
Proof.
  unfold PIL.bbox_scan.
  destruct (foldl _ _ (seq 0 ys)) as [[[b0 b1] b2] b3] eqn:Hscan.
  apply scan_rows_spec in Hscan. destruct b1; [|done].
  intros ?; by simplify_eq.
Qed.

(** No box is found exactly when no pixel has data. *)
Lemma bbox_scan_None :
  PIL.bbox_scan has_data xs ys = None ↔
  ∀ x y, x < xs → y < ys → has_data x y = false.
Proof.
  unfold PIL.bbox_scan.
  destruct (foldl _ _ (seq 0 ys)) as [[[b0 b1] b2] b3] eqn:Hscan.
  apply scan_rows_spec in Hscan. destruct b1 as [t|].
  - split; [done|]. intros Hnone.
    destruct Hscan as (_ & ? & _ & _ & _ & (x & ? & Hd) & _).
    rewrite Hnone in Hd by lia. discriminate.
  - split; [|done]. intros _. by destruct Hscan as (_ & _ & _ & ?).
Qed.

(** When every pixel has data, the box is the whole image. *)
Lemma bbox_scan_full :
  0 < xs → 0 < ys →
  (∀ x y, x < xs → y < ys → has_data x y = true) →
  PIL.bbox_scan has_data xs ys = Some (0, 0, xs, ys).
Proof.
  intros Hxs Hys Hall.
  destruct (PIL.bbox_scan has_data xs ys) as [[[[l t] r] b]|] eqn:Hbox.
  - apply bbox_scan_Some in Hbox as (? & ? & Hsound & _).
    pose proof (Hsound 0 0 Hxs Hys (Hall _ _ Hxs Hys)).
    assert (xs - 1 < xs ∧ ys - 1 < ys) as [Hx Hy] by lia.
    pose proof (Hsound _ _ Hx Hy (Hall _ _ Hx Hy)).
    repeat f_equal; lia.
  - pose proof (proj1 bbox_scan_None Hbox 0 0 Hxs Hys) as Hnone.
    rewrite Hall in Hnone by done. discriminate.
Qed.
End GetBBoxFacts.

(** ** Images: conversion, bounding box, crop *)

Section ImageFacts.
Import PIL.


Lemma convert_RGBA_mode img : mode_of (convert_RGBA img) = RGBA.
Proof. by destruct img. Qed.

Lemma convert_RGBA_size img : size (convert_RGBA img) = size img.
Proof. by destruct img. Qed.

Lemma convert_RGBA_id img :
  mode_of img = RGBA → convert_RGBA img = img.
Proof. by destruct img. Qed.

(** The script converts unless the mode is RGBA already; either way it
    goes on with [convert_RGBA img]. *)
Lemma convert_if_needed img :
  (if decide (mode_of img ≠ RGBA) then convert_RGBA img else img)
  = convert_RGBA img.
Proof. by destruct img. Qed.






(** With [alpha_only], the content of an RGBA image is where its alpha
    is not zero. *)
Lemma content_at_RGBA img x y :
  mode_of img = RGBA →
  content_at true img x y = from_option nonzero false (alpha_at img x y).
Proof.
  destruct img as [| | | |im| |]; try done. intros _; simpl.
  by destruct (pixel_at im x y).
Qed.

Lemma getbbox_Some alpha_only img l t r b :
  getbbox alpha_only img = Some (l, t, r, b) →
  l < r ≤ width img ∧ t < b ≤ height img ∧
  (∀ x y, x < width img → y < height img →
          content_at alpha_only img x y = true → l ≤ x < r ∧ t ≤ y < b).
Proof.
  intros Hbox. apply bbox_scan_Some in Hbox as (? & ? & ? & _). done.
Qed.

(** The box is the smallest one that holds all the content. *)
Lemma getbbox_smallest alpha_only img l t r b l' t' r' b' :
  getbbox alpha_only img = Some (l, t, r, b) →
  (∀ x y, x < width img → y < height img →
          content_at alpha_only img x y = true → l' ≤ x < r' ∧ t' ≤ y < b') →
  l' ≤ l ∧ t' ≤ t ∧ r ≤ r' ∧ b ≤ b'.
Proof.
  intros Hbox Hholds.
  apply bbox_scan_Some in Hbox
    as (Hlr & Htb & _ & (y1 & Hy1 & Hd1) & (x2 & y2 & -> & Hy2 & Hd2)
        & (x3 & Hx3 & Hd3) & (x4 & y4 & -> & Hx4 & Hd4)).
  pose proof (Hholds l y1 ltac:(lia) ltac:(lia) Hd1).
  pose proof (Hholds x2 y2 ltac:(lia) ltac:(lia) Hd2).
  pose proof (Hholds x3 t ltac:(lia) ltac:(lia) Hd3).
  pose proof (Hholds x4 y4 ltac:(lia) ltac:(lia) Hd4).
  lia.
Qed.

Lemma crop_core_size img l t r b :
  size (crop_core (l, t, r, b) img) = (r - l, b - t).
Proof. by destruct img. Qed.

Lemma crop_core_mode img box : mode_of (crop_core box img) = mode_of img.
Proof. by destruct img. Qed.

(** Inside the box, the cropped image shows the pixels of the box. *)
Lemma crop_raster_pixel_at {px} (zero : px) (im : raster px) x0 y0 x1 y1 x y :
  x < x1 - x0 → y < y1 - y0 →
  pixel_at (crop_raster zero (x0, y0, x1, y1) im) x y
  = Some (default zero (pixel_at im (x0 + x) (y0 + y))).
Proof.
  intros Hx Hy. unfold pixel_at at 1; simpl.
  rewrite bool_decide_eq_true_2 by done.
  rewrite list_lookup_fmap, lookup_seq_lt by done; simpl.
  by rewrite list_lookup_fmap, lookup_seq_lt by done.
Qed.

(** A part of an image that passed the decompression-bomb check passes
    it too. *)
Lemma decompression_bomb_check_mono w h w' h' :
  w' ≤ w → h' ≤ h →
  decompression_bomb_check (w, h) = None →
  decompression_bomb_check (w', h') = None.
Proof.
  unfold decompression_bomb_check; simpl. intros Hw Hh.
  destruct (N.ltb_spec (2 * MAX_IMAGE_PIXELS)
              (N.of_nat (max 1 w) * N.of_nat (max 1 h))); [done|].
  intros _.
  destruct (N.ltb_spec (2 * MAX_IMAGE_PIXELS)
              (N.of_nat (max 1 w') * N.of_nat (max 1 h'))) as [Hlt|]; [|done].
  assert (N.of_nat (max 1 w') * N.of_nat (max 1 h')
          ≤ N.of_nat (max 1 w) * N.of_nat (max 1 h))%N
    by (apply N.mul_le_mono; lia).
  lia.
Qed.

(** Cropping an image to its bounding box never raises. *)
Lemma crop_getbbox alpha_only img box :
  decompression_bomb_check (size img) = None →
  getbbox alpha_only img = Some box →
  crop img box = inr (crop_core box img).
Proof.
  destruct box as [[[l t] r] b]. intros Hbomb Hbox.
  apply getbbox_Some in Hbox as (Hlr & Htb & _). unfold crop.
  destruct (Nat.ltb_spec r l); [lia|]. destruct (Nat.ltb_spec b t); [lia|].
  assert (decompression_bomb_check (r - l, b - t) = None) as ->; [|done].
  apply (decompression_bomb_check_mono (width img) (height img)); [lia..|].
  unfold width, height. by destruct (size img).
Qed.

(** An image with positive size whose alpha is nowhere zero is its own
    bounding box. *)
Lemma getbbox_full img :
  mode_of img = RGBA →
  0 < width img → 0 < height img →
  (∀ x y, x < width img → y < height img →
          ∃ a, alpha_at img x y = Some a ∧ a ≠ 0%Z) →
  getbbox true img = Some (0, 0, width img, height img).
Proof.
  intros Hmode Hw Hh Halpha. apply bbox_scan_full; [done..|].
  intros x y Hx Hy. rewrite content_at_RGBA by done.
  destruct (Halpha x y Hx Hy) as (a & -> & Ha); simpl.
  unfold nonzero. by destruct (Z.eqb_spec a 0).
Qed.

End ImageFacts.

(** ** Opening and saving *)

Lemma bind_unfold {A B} (m : M A) (f : A → M B) w :
  (m ≫= f) w = match m w with
               | (Return a, w') => f a w'
               | (Raise e, w') => (Raise e, w')
               end.
Proof. done. Qed.

Lemma world_eta w : World (files w) (readable w) (writable w) (stdout w) = w.
Proof. by destruct w. Qed.

Section FileFacts.
Variable registry : Registry.

(** [Image.open] changes nothing; the image file it returns comes from
    the data of the file, has a positive size and passed the bomb
    check. *)
Lemma Image_open_world fp w :
  (Image_open registry fp w).2 = w.
Proof.
  unfold Image_open, mbind, M_bind, read_binary, raise, mret, M_ret.
  repeat case_match; simplify_eq/=; done.
Qed.

Lemma Image_open_Return fp w f :
  (Image_open registry fp w).1 = Return f →
  Image_open registry fp w = (Return f, w) ∧
  (∃ data, files w !! fp = Some data ∧ readable w fp = true ∧
           OPEN registry data = Some f) ∧
  0 < (file_size f).1 ∧ 0 < (file_size f).2 ∧
  PIL.decompression_bomb_check (file_size f) = None.
Proof.
  intros Hopen. split.
  { pose proof (Image_open_world fp w) as Hw.
    destruct (Image_open registry fp w) as [r w']. by simplify_eq/=. }
  revert Hopen.
  unfold Image_open, mbind, M_bind, read_binary, raise, mret, M_ret.
  destruct (files w !! fp) as [data|]; [|done].
  destruct (readable w fp); [|done].
  destruct (OPEN registry data) as [im|] eqn:Hdec; [|done].
  case_bool_decide as Hpos; [|done].
  destruct (PIL.decompression_bomb_check (file_size im)) eqn:Hbomb; [done|].
  intros [= ->]. split; [by exists data|]. by destruct Hpos.
Qed.

(** The same for a file whose pixels load. *)
Lemma Image_open_Loads fp w img :
  (Image_open registry fp w).1 = Return (Loads img) →
  Image_open registry fp w = (Return (Loads img), w) ∧
  (∃ data, files w !! fp = Some data ∧ readable w fp = true ∧
           OPEN registry data = Some (Loads img)) ∧
  0 < PIL.width img ∧ 0 < PIL.height img ∧
  PIL.decompression_bomb_check (PIL.size img) = None.
Proof. apply Image_open_Return. Qed.


(** [save] touches the file it is given and nothing else. *)
Lemma Image_save_frame im fp w :
  let w' := (Image_save registry im fp w).2 in
  stdout w' = stdout w ∧ readable w' = readable w ∧
  writable w' = writable w ∧
  ∀ p, p ≠ fp → files w' !! p = files w !! p.
Proof.
  unfold Image_save, mbind, M_bind, path_exists, open_truncate, write_binary,
    os_remove, raise, mret, M_ret.
  repeat case_match; simplify_eq/=; repeat split; try done.
  all: intros q Hq; rewrite ?lookup_delete_ne, ?lookup_insert_ne by done; done.
Qed.

(** When the path may be written and the encoder accepts the image,
    [save] replaces the content of the file by the encoded image. *)
Lemma Image_save_Return im fp data w :
  encodes registry fp im data →
  writable w fp = true →
  Image_save registry im fp w = (Return (), set_files <[fp := data]> w).
Proof.
  intros (format & handler & Hext & Hsave & Henc) Hw.
  unfold Image_save, mbind, M_bind, path_exists, open_truncate, write_binary.
  rewrite Hext, Hsave; simpl. rewrite Hw, Henc; simpl.
  unfold set_files; simpl. by rewrite insert_insert_eq.
Qed.

(** [save] returns only after the encoder accepted the image and the file
    holds what it wrote. *)
Lemma Image_save_inv im fp w w' :
  Image_save registry im fp w = (Return (), w') →
  writable w fp = true ∧
  ∃ data, encodes registry fp im data ∧ w' = set_files <[fp := data]> w.
Proof.
  unfold Image_save, encodes.
  destruct (EXTENSION registry _) as [format|] eqn:Hext; [|done].
  destruct (SAVE registry format) as [handler|] eqn:Hsave; [|done].
  unfold mbind, M_bind, path_exists, open_truncate, write_binary,
    os_remove, raise, mret, M_ret.
  destruct (writable w fp); [|done].
  destruct (handler im) as [data [e|]] eqn:Henc.
  { by destruct (negb _). }
  intros [= <-]. split; [done|]. exists data. split.
  - by exists format, handler.
  - unfold set_files; simpl. by rewrite insert_insert_eq.
Qed.

(** Two worlds that hold the same file at [fp], with the same
    permission, give [Image.open] the same outcome. *)
Lemma Image_open_agree fp w1 w2 :
  files w1 !! fp = files w2 !! fp →
  readable w1 fp = readable w2 fp →
  (Image_open registry fp w1).1 = (Image_open registry fp w2).1.
Proof.
  intros Hfile Hread.
  unfold Image_open, mbind, M_bind, read_binary, raise, mret, M_ret.
  rewrite Hfile, Hread.
  destruct (files w2 !! fp) as [data|]; [|done].
  destruct (readable w2 fp); [|done].
  destruct (OPEN registry data) as [im|]; [|done].
  case_bool_decide; [|done].
  by destruct (PIL.decompression_bomb_check (file_size im)).
Qed.

(** Two worlds that agree on whether [fp] exists and may be written
    give [save] the same outcome; it leaves the same content at [fp] in
    both, unless it stops before opening the file. *)
Lemma Image_save_agree im fp w1 w2 :
  writable w1 fp = writable w2 fp →
  (is_Some (files w1 !! fp) ↔ is_Some (files w2 !! fp)) →
  let s1 := Image_save registry im fp w1 in
  let s2 := Image_save registry im fp w2 in
  s1.1 = s2.1 ∧
  (files s1.2 !! fp = files s2.2 !! fp ∨
   (files s1.2 = files w1 ∧ files s2.2 = files w2)).
Proof.
  intros Hwrite Hexists. cbv zeta. unfold Image_save.
  destruct (EXTENSION registry _) as [format|]; [|by split; [|right]].
  destruct (SAVE registry format) as [handler|]; [|by split; [|right]].
  unfold mbind, M_bind, path_exists, open_truncate, write_binary,
    os_remove, raise, mret, M_ret.
  rewrite (bool_decide_ext _ _ Hexists), Hwrite.
  destruct (writable w2 fp); [|by split; [|right]].
  destruct (handler im) as [data [e|]],
    (bool_decide (is_Some (files w2 !! fp))); simpl.
  all: split; [done|left].
  all: by rewrite ?lookup_delete_eq, ?lookup_insert_eq.
Qed.
End FileFacts.

(** The methods of an image whose pixels load. *)
Lemma Image_getbbox_Loads img w :
  Image_getbbox (Loads img) w = (Return (PIL.getbbox true img), w).
Proof. done. Qed.

Lemma Image_crop_Loads img box cropped w :
  PIL.crop img box = inr cropped →
  Image_crop (Loads img) box w = (Return cropped, w).
Proof.
  intros Hcrop. unfold Image_crop. rewrite bind_unfold. simpl.
  by rewrite Hcrop.
Qed.

(** ** Printing *)

Section PrintFacts.
Variable console : Console.

Lemma print_all_cons line lines :
  print_all console (line :: lines)
  = (print console line;; print_all console lines).
Proof. done. Qed.

(** What a list of prints does depends on the lines alone: it appends
    the lines that could be encoded, up to the first that could not. *)
Lemma print_all_outcome lines :
  ∃ res printed,
    (∀ w, print_all console lines w
          = (res, World (files w) (readable w) (writable w)
                    (stdout w ++ printed))) ∧
    (res = Return () → printed = lines) ∧
    ((∀ line, line ∈ lines → prints_fine console line) → res = Return ()).
Proof.
  induction lines as [|line lines (res & printed & Hrun & Hall & Hfine)].
  - exists (Return ()), []. split; [|done].
    intros w. cbn. unfold mret, M_ret. by rewrite app_nil_r, world_eta.
  - destruct (encode_error console line) as [msg|] eqn:Henc.
    + exists (Raise (UnicodeEncodeError msg)), []. split; [|split].
      * intros w. rewrite print_all_cons, bind_unfold. unfold print.
        rewrite Henc. by rewrite app_nil_r, world_eta.
      * done.
      * intros Hlines. specialize (Hlines line). unfold prints_fine in Hlines.
        rewrite Henc in Hlines. discriminate Hlines. by left.
    + exists res, (line :: printed). split; [|split].
      * intros w. rewrite print_all_cons, bind_unfold. unfold print.
        rewrite Henc, Hrun. unfold add_stdout; simpl.
        by rewrite <- (assoc_L (++)).
      * intros Hres. by rewrite Hall.
      * intros Hlines. apply Hfine. intros l Hl. apply Hlines. by right.
Qed.

Lemma print_all_files lines w :
  files (print_all console lines w).2 = files w.
Proof.
  destruct (print_all_outcome lines) as (res & printed & Hrun & _).
  by rewrite Hrun.
Qed.

(** One print, and the four prints of a successful run, as a list of
    prints. *)
Lemma print_one line w :
  print console line w = print_all console [line] w.
Proof.
  cbn. rewrite bind_unfold. unfold print, mret, M_ret.
  by destruct (encode_error console line).
Qed.

Lemma print_four a b c d w :
  (print console a;; print console b;; print console c;; print console d) w
  = print_all console [a; b; c; d] w.
Proof.
  cbn. rewrite !bind_unfold.
  destruct (print console a w) as [[[]|?] w1]; [|done]. rewrite !bind_unfold.
  destruct (print console b w1) as [[[]|?] w2]; [|done]. rewrite !bind_unfold.
  destruct (print console c w2) as [[[]|?] w3]; [|done]. rewrite !bind_unfold.
  by destruct (print console d w3) as [[[]|?] w4].
Qed.
End PrintFacts.

(** ** The runs of the script *)

Section RunFacts.
Variable registry : Registry.
Variable console : Console.

(** A run stops with the exception that [Image.open] raises, or that
    loading the pixels raises. *)
Lemma Image_open_Raise image_path w e output_path :
  (Image_open registry image_path w).1 = Raise e →
  crop_whitespace registry console image_path output_path w = (Raise e, w).
Proof.
  intros Hopen. pose proof (Image_open_world registry image_path w) as Hw.
  unfold crop_whitespace. rewrite bind_unfold.
  destruct (Image_open registry image_path w) as [r w']. by simplify_eq/=.
Qed.

Lemma Image_open_Fails image_path w mode size e output_path :
  (Image_open registry image_path w).1 = Return (Fails mode size e) →
  crop_whitespace registry console image_path output_path w = (Raise e, w).
Proof.
  intros Hopen. apply Image_open_Return in Hopen as (Hopen & _).
  unfold crop_whitespace. rewrite bind_unfold, Hopen.
  rewrite bind_unfold. by case_decide.
Qed.

(** The script after [Image.open] returned a file whose pixels load. *)
Lemma crop_whitespace_opened image_path output_path w img :
  (Image_open registry image_path w).1 = Return (Loads img) →
  crop_whitespace registry console image_path output_path w =
  match PIL.getbbox true (PIL.convert_RGBA img) with
  | Some bbox =>
      let cropped := PIL.crop_core bbox (PIL.convert_RGBA img) in
      match Image_save registry cropped output_path w with
      | (Return _, w') =>
          print_all console
            (success_lines output_path (PIL.size img) (PIL.size cropped)) w'
      | (Raise e, w') => (Raise e, w')
      end
  | None => print_all console ["❌ Could not find content to crop"] w
  end.
Proof.
  intros Hopen. apply Image_open_Loads in Hopen as (Hopen & _ & _ & _ & Hbomb).
  unfold crop_whitespace. rewrite bind_unfold, Hopen.
  assert (Hconv : (if decide (file_mode (Loads img) ≠ PIL.RGBA)
                   then Image_convert_RGBA (Loads img) else mret (Loads img)) w
                  = (Return (Loads (PIL.convert_RGBA img)), w)).
  { case_decide as Hmode; [done|]. simpl in Hmode.
    rewrite convert_RGBA_id; [done|].
    by destruct (decide (PIL.mode_of img = PIL.RGBA)). }
  rewrite bind_unfold, Hconv. rewrite bind_unfold, Image_getbbox_Loads.
  destruct (PIL.getbbox true (PIL.convert_RGBA img)) as [bbox|] eqn:Hbox.
  - cbv zeta. rewrite bind_unfold.
    rewrite (Image_crop_Loads _ bbox (PIL.crop_core bbox (PIL.convert_RGBA img)))
      by (apply (crop_getbbox true); [by rewrite convert_RGBA_size|done]).
    rewrite bind_unfold.
    destruct (Image_save registry _ output_path w) as [[[]|e] w1]; [|done].
    rewrite print_four. unfold success_lines. simpl file_size.
    by rewrite convert_RGBA_size.
  - apply print_one.
Qed.
End RunFacts.

(** ** The cropped image *)

Section CropFacts.
Import PIL.

(** Inside the box, the crop has content where the image has it. *)
Lemma content_at_crop_core alpha_only img l t r b x y :
  x < r - l → y < b - t →
  content_at alpha_only (crop_core (l, t, r, b) img) x y
  = content_at alpha_only img (l + x) (t + y).
Proof.
  intros Hx Hy.
  destruct img as [key im|im|pal im|key im|im|im|im]; unfold content_at, crop_core;
    rewrite crop_raster_pixel_at by done; simpl.
  all: destruct (pixel_at im (l + x) (t + y)); simpl; try done.
  all: by destruct alpha_only.
Qed.

(** A pixel of the box shows in the crop, moved by the corner of the box. *)
Lemma crop_core_pixel img l t r b x y a :
  l ≤ x < r → t ≤ y < b →
  alpha_at img x y = Some a →
  alpha_at (crop_core (l, t, r, b) img) (x - l) (y - t) = Some a ∧
  colour_at (crop_core (l, t, r, b) img) (x - l) (y - t) = colour_at img x y.
Proof.
  intros Hx Hy.
  destruct img as [key im|im|pal im|key im|im|im|im];
    unfold alpha_at, colour_at, crop_core;
    rewrite crop_raster_pixel_at by lia;
    replace (l + (x - l)) with x by lia; replace (t + (y - t)) with y by lia.
  all: by destruct (pixel_at im x y).
Qed.

(** In an RGBA image the content is where some alpha other than 0 is. *)
Lemma content_at_alpha img x y :
  mode_of img = RGBA →
  content_at true img x y = true ↔ ∃ a, alpha_at img x y = Some a ∧ a ≠ 0%Z.
Proof.
  intros Hmode. rewrite content_at_RGBA by done.
  destruct (alpha_at img x y) as [a|]; simpl.
  - unfold nonzero. destruct (Z.eqb_spec a 0); split.
    + done.
    + intros (a' & [= <-] & ?). done.
    + intros _. by exists a.
    + done.
  - split; [done|]. by intros (a & ? & _).
Qed.

(** The crop to the bounding box is its own bounding box. *)
Lemma getbbox_crop_core alpha_only img l t r b :
  getbbox alpha_only img = Some (l, t, r, b) →
  getbbox alpha_only (crop_core (l, t, r, b) img) = Some (0, 0, r - l, b - t).
Proof.
  intros Hbox.
  apply bbox_scan_Some in Hbox
    as (Hlr & Htb & Hin & (y1 & Hy1 & Hd1) & (x2 & y2 & -> & Hy2 & Hd2)
        & (x3 & Hx3 & Hd3) & (x4 & y4 & -> & Hx4 & Hd4)).
  pose proof (Hin x3 t Hx3 ltac:(lia) Hd3).
  pose proof (Hin x4 y4 Hx4 ltac:(lia) Hd4).
  set (cropped := crop_core (l, t, S x2, S y4) img).
  assert (Hsize : size cropped = (S x2 - l, S y4 - t)) by apply crop_core_size.
  assert (Hw : width cropped = S x2 - l) by (unfold width; by rewrite Hsize).
  assert (Hh : height cropped = S y4 - t) by (unfold height; by rewrite Hsize).
  assert (Hshift : ∀ x y, l ≤ x < S x2 → t ≤ y < S y4 →
            content_at alpha_only img x y = true →
            content_at alpha_only cropped (x - l) (y - t) = true).
  { intros x y Hx Hy Hd. unfold cropped.
    rewrite content_at_crop_core by lia.
    by replace (l + (x - l)) with x by lia; replace (t + (y - t)) with y by lia. }
  destruct (getbbox alpha_only cropped) as [[[[l' t'] r'] b']|] eqn:Hbox'.
  - apply getbbox_Some in Hbox' as (Hlr' & Htb' & Hsound).
    rewrite Hw in Hlr', Hsound. rewrite Hh in Htb', Hsound.
    pose proof (Hsound (l - l) (y1 - t) ltac:(lia) ltac:(lia)
                  (Hshift l y1 ltac:(lia) ltac:(lia) Hd1)).
    pose proof (Hsound (x2 - l) (y2 - t) ltac:(lia) ltac:(lia)
                  (Hshift x2 y2 ltac:(lia) ltac:(lia) Hd2)).
    pose proof (Hsound (x3 - l) (t - t) ltac:(lia) ltac:(lia)
                  (Hshift x3 t ltac:(lia) ltac:(lia) Hd3)).
    pose proof (Hsound (x4 - l) (y4 - t) ltac:(lia) ltac:(lia)
                  (Hshift x4 y4 ltac:(lia) ltac:(lia) Hd4)).
    repeat f_equal; lia.
  - unfold getbbox in Hbox'. rewrite Hw, Hh in Hbox'.
    pose proof (proj1 (bbox_scan_None _ _ _) Hbox' (l - l) (y1 - t)
                  ltac:(lia) ltac:(lia)) as Hnone.
    rewrite (Hshift l y1) in Hnone by (lia || done). discriminate.
Qed.

(** Cropping a crop to its full extent gives the crop back. *)
Lemma crop_raster_again {px} (zero : px) (im : raster px) x0 y0 x1 y1 :
  crop_raster zero (0, 0, x1 - x0, y1 - y0) (crop_raster zero (x0, y0, x1, y1) im)
  = crop_raster zero (x0, y0, x1, y1) im.
Proof.
  unfold crop_raster at 1. rewrite !Nat.sub_0_r.
  unfold crop_raster at 2. f_equal.
  apply list_fmap_ext. intros i y Hy. apply lookup_seq in Hy as [-> Hi].
  apply list_fmap_ext. intros j x Hx. apply lookup_seq in Hx as [-> Hj].
  by rewrite crop_raster_pixel_at by done.
Qed.

Lemma crop_core_again img l t r b :
  crop_core (0, 0, r - l, b - t) (crop_core (l, t, r, b) img)
  = crop_core (l, t, r, b) img.
Proof. destruct img; cbn [crop_core]; by rewrite crop_raster_again. Qed.
End CropFacts.

Lemma crop_inr img box cropped :
  PIL.crop img box = inr cropped →
  cropped = PIL.crop_core box img ∧
  PIL.decompression_bomb_check (PIL.size cropped) = None.
Proof.
  destruct box as [[[l t] r] b]. unfold PIL.crop.
  destruct (r <? l); [done|]. destruct (b <? t); [done|].
  destruct (PIL.decompression_bomb_check (r - l, b - t)) eqn:Hbomb; [done|].
  intros [= <-]. by rewrite crop_core_size.
Qed.


(** ** More on the runs and the entry point *)

Section MoreRunFacts.
Variable registry : Registry.
Variable console : Console.

(** When a box is found, the path may be written and the encoder accepts
    the cropped image, the run replaces the file by the encoded crop and
    then prints its four lines. *)
Lemma crop_whitespace_found image_path output_path w img bbox data :
  (Image_open registry image_path w).1 = Return (Loads img) →
  PIL.getbbox true (PIL.convert_RGBA img) = Some bbox →
  encodes registry output_path
    (PIL.crop_core bbox (PIL.convert_RGBA img)) data →
  writable w output_path = true →
  crop_whitespace registry console image_path output_path w
  = print_all console
      (success_lines output_path (PIL.size img)
         (PIL.size (PIL.crop_core bbox (PIL.convert_RGBA img))))
      (set_files <[output_path := data]> w).
Proof.
  intros Hopen Hbox Henc Hw.
  rewrite (crop_whitespace_opened _ _ _ _ _ img) by done. rewrite Hbox.
  cbv zeta. by rewrite (Image_save_Return _ _ _ data).
Qed.

(** The same, with what is known of the outcome: the file is replaced
    whatever happens to the prints, and the run returns when standard
    output can encode the four lines. *)
Lemma crop_whitespace_saved image_path output_path w img bbox data :
  (Image_open registry image_path w).1 = Return (Loads img) →
  PIL.getbbox true (PIL.convert_RGBA img) = Some bbox →
  encodes registry output_path
    (PIL.crop_core bbox (PIL.convert_RGBA img)) data →
  writable w output_path = true →
  ∃ res w',
    crop_whitespace registry console image_path output_path w = (res, w') ∧
    files w' = <[output_path := data]> (files w) ∧
    ((∀ text, prints_fine console text) → res = Return ()).
Proof.
  intros Hopen Hbox Henc Hw.
  rewrite (crop_whitespace_found _ _ _ img bbox data) by done.
  destruct (print_all_outcome console
              (success_lines output_path (PIL.size img)
                 (PIL.size (PIL.crop_core bbox (PIL.convert_RGBA img)))))
    as (res & printed & Hrun & _ & Hfine).
  rewrite Hrun. eexists _, _. split; [done|]. split; [done|].
  intros Hall. apply Hfine. intros line _. apply Hall.
Qed.

(** No run touches a file other than [output_path]. *)
Lemma crop_whitespace_other_files image_path output_path w p :
  p ≠ output_path →
  files (crop_whitespace registry console image_path output_path w).2 !! p
  = files w !! p.
Proof.
  intros Hp.
  destruct (Image_open registry image_path w).1 as [[img|mode size e]|e]
    eqn:Hopen.
  - rewrite (crop_whitespace_opened _ _ _ _ _ img) by done.
    destruct (PIL.getbbox true (PIL.convert_RGBA img)) as [bbox|].
    + cbv zeta.
      pose proof (Image_save_frame registry
                    (PIL.crop_core bbox (PIL.convert_RGBA img)) output_path w)
        as (_ & _ & _ & Hfiles).
      destruct (Image_save registry _ output_path w) as [[[]|e] w1];
        simpl in Hfiles.
      * rewrite print_all_files. by apply Hfiles.
      * by apply Hfiles.
    + by rewrite print_all_files.
  - by rewrite (Image_open_Fails _ _ _ _ mode size e).
  - by rewrite (Image_open_Raise _ _ _ _ e).
Qed.

(** A run that returns after it found no box has printed one line; one
    that returns after [save] has printed the four lines. *)
Lemma print_all_Return lines w w' :
  print_all console lines w = (Return (), w') →
  w' = World (files w) (readable w) (writable w) (stdout w ++ lines).
Proof.
  destruct (print_all_outcome console lines) as (res & printed & Hrun & Hall & _).
  rewrite Hrun. intros [= -> <-]. by rewrite Hall.
Qed.

Lemma no_content_iff_no_bbox image_path output_path w img :
  (Image_open registry image_path w).1 = Return (Loads img) →
  prints_fine console "❌ Could not find content to crop" →
  reports_no_content registry console image_path output_path w ↔
  PIL.getbbox true (PIL.convert_RGBA img) = None.
Proof.
  intros Hopen Hfine. unfold reports_no_content.
  rewrite (crop_whitespace_opened _ _ _ _ _ img) by done.
  destruct (PIL.getbbox true (PIL.convert_RGBA img)) as [bbox|].
  - split; [|done]. cbv zeta.
    pose proof (Image_save_frame registry
                  (PIL.crop_core bbox (PIL.convert_RGBA img)) output_path w)
      as (Hout & _).
    destruct (Image_save registry _ output_path w) as [[[]|e] w1];
      [|discriminate].
    simpl in Hout. intros Hrun. apply print_all_Return in Hrun.
    apply (f_equal (λ w, length (stdout w))) in Hrun. simpl in Hrun.
    rewrite Hout, !length_app in Hrun. simpl in Hrun. lia.
  - split; [done|]. intros _. rewrite <- print_one. unfold print.
    unfold prints_fine in Hfine. by rewrite Hfine.
Qed.

(** What [main] does with each outcome of [crop_whitespace]. *)
Lemma main_Return w w' :
  crop_whitespace registry console input_path output_path w = (Return (), w') →
  main registry console w = (Return (), w').
Proof. intros Hrun. unfold main, try_except. by rewrite Hrun. Qed.

Lemma main_Raise w e w' :
  crop_whitespace registry console input_path output_path w = (Raise e, w') →
  main registry console w
  = print_all console
      ["❌ Error: " +:+ str_exn e;
       String "010"%char
         "💡 Make sure Pillow is installed: pip install Pillow"] w'.
Proof.
  intros Hrun. unfold main, try_except. rewrite Hrun.
  cbn. rewrite !bind_unfold.
  destruct (print console _ w') as [[[]|?] w1]; [|done]. rewrite bind_unfold.
  by destruct (print console _ w1) as [[[]|?] w2].
Qed.

Lemma main_files w :
  files (main registry console w).2
  = files (crop_whitespace registry console input_path output_path w).2.
Proof.
  destruct (crop_whitespace registry console input_path output_path w)
    as [[[]|e] w'] eqn:Hrun.
  - by rewrite (main_Return _ _ Hrun).
  - by rewrite (main_Raise _ _ _ Hrun), print_all_files.
Qed.
End MoreRunFacts.

(** ** Properties of the cropper *)

(** C1: when a bounding box (left, top, right, bottom) is found, the
    cropped image is right - left wide and bottom - top high, and the run
    replaces whatever was at [output_path] by the encoding of that image
    (given that the path may be written and the encoder registered for it
    accepts the image); the run returns when standard output can encode
    what it prints. *)
Theorem crop_whitespace_crops_to_bbox
    registry console image_path output_path w img l t r b :
  (Image_open registry image_path w).1 = Return (Loads img) →
  PIL.getbbox true (PIL.convert_RGBA img) = Some (l, t, r, b) →
  ∃ cropped,
    PIL.crop (PIL.convert_RGBA img) (l, t, r, b) = inr cropped ∧
    PIL.width cropped = r - l ∧ PIL.height cropped = b - t ∧
    ∀ data,
      encodes registry output_path cropped data →
      writable w output_path = true →
      ∃ res w',
        crop_whitespace registry console image_path output_path w = (res, w') ∧
        files w' = <[output_path := data]> (files w) ∧
        ((∀ text, prints_fine console text) → res = Return ()).
Proof.
  intros Hopen Hbox.
  exists (PIL.crop_core (l, t, r, b) (PIL.convert_RGBA img)).
  pose proof (Image_open_Loads _ _ _ _ Hopen) as (_ & _ & _ & _ & Hbomb).
  split; [|split; [|split]].
  - apply (crop_getbbox true); [by rewrite convert_RGBA_size|done].
  - unfold PIL.width. by rewrite crop_core_size.
  - unfold PIL.height. by rewrite crop_core_size.
  - intros data Henc Hw. by eapply crop_whitespace_saved.
Qed.

(** C2: on the 200×100 white image with a 50×30 red rectangle at (75, 35)
    the bounding box is the whole image, and the run writes an image of
    200×100 pixels, not 50×30. *)
Theorem logo_200x100_keeps_white_border :
  let w := Sample.world_only Sample.logo_200x100 in
  let run := crop_whitespace Sample.registry Sample.utf8 "in.raw" "out.raw" w in
  (Image_open Sample.registry "in.raw" w).1
  = Return (Loads Sample.logo_200x100) ∧
  PIL.getbbox true (PIL.convert_RGBA Sample.logo_200x100)
  = Some (0, 0, 200, 100) ∧
  run.1 = Return () ∧
  stdout run.2 = ["✅ Logo cropped successfully!";
                  "   Original size: (200, 100)";
                  "   Cropped size: (200, 100)";
                  "   Saved to: out.raw"] ∧
  file_size <$> (files run.2 !! "out.raw" ≫= Sample.raw_decode)
  = Some (200, 100).
Proof. vm_compute. done. Qed.



(** The run on an image whose bounding box is its full extent. *)
Lemma crop_whitespace_full_extent
    registry console image_path output_path w img :
  (Image_open registry image_path w).1 = Return (Loads img) →
  PIL.getbbox true (PIL.convert_RGBA img)
  = Some (0, 0, PIL.width img, PIL.height img) →
  ∃ cropped,
    PIL.crop (PIL.convert_RGBA img) (0, 0, PIL.width img, PIL.height img)
    = inr cropped ∧
    PIL.size cropped = PIL.size img ∧
    ∀ data,
      encodes registry output_path cropped data →
      writable w output_path = true →
      ∃ res w',
        crop_whitespace registry console image_path output_path w = (res, w') ∧
        files w' = <[output_path := data]> (files w) ∧
        ((∀ text, prints_fine console text) → res = Return ()).
Proof.
  intros Hopen Hbox.
  exists (PIL.crop_core (0, 0, PIL.width img, PIL.height img)
            (PIL.convert_RGBA img)).
  pose proof (Image_open_Loads _ _ _ _ Hopen) as (_ & _ & _ & _ & Hbomb).
  split; [|split].
  - apply (crop_getbbox true); [by rewrite convert_RGBA_size|done].
  - rewrite crop_core_size, !Nat.sub_0_r. unfold PIL.width, PIL.height.
    by destruct (PIL.size img).
  - intros data Henc Hw. by eapply crop_whitespace_saved.
Qed.

(** C4: when the image is fully opaque after the conversion to RGBA, the
    bounding box is the full extent of the image and the image that is
    saved has the dimensions of the input: no border is removed. *)
Theorem opaque_image_bbox_is_full_extent
    registry console image_path output_path w img :
  (Image_open registry image_path w).1 = Return (Loads img) →
  (∀ x y, x < PIL.width img → y < PIL.height img →
          PIL.alpha_at (PIL.convert_RGBA img) x y = Some 255%Z) →
  PIL.getbbox true (PIL.convert_RGBA img)
  = Some (0, 0, PIL.width img, PIL.height img) ∧
  ∃ cropped,
    PIL.crop (PIL.convert_RGBA img) (0, 0, PIL.width img, PIL.height img)
    = inr cropped ∧
    PIL.size cropped = PIL.size img ∧
    ∀ data,
      encodes registry output_path cropped data →
      writable w output_path = true →
      ∃ res w',
        crop_whitespace registry console image_path output_path w = (res, w') ∧
        files w' = <[output_path := data]> (files w) ∧
        ((∀ text, prints_fine console text) → res = Return ()).
Proof.
  intros Hopen Hopaque.
  pose proof (Image_open_Loads _ _ _ _ Hopen) as (_ & _ & Hw & Hh & _).
  assert (Hbox : PIL.getbbox true (PIL.convert_RGBA img)
                 = Some (0, 0, PIL.width img, PIL.height img)).
  { pose proof (convert_RGBA_size img) as Hsize.
    assert (PIL.width (PIL.convert_RGBA img) = PIL.width img) as Hw'
      by (unfold PIL.width; by rewrite Hsize).
    assert (PIL.height (PIL.convert_RGBA img) = PIL.height img) as Hh'
      by (unfold PIL.height; by rewrite Hsize).
    rewrite <- Hw', <- Hh'. apply getbbox_full.
    - apply convert_RGBA_mode.
    - by rewrite Hw'.
    - by rewrite Hh'.
    - intros x y Hx Hy. exists 255%Z. split; [|done].
      apply Hopaque; [by rewrite <- Hw'|by rewrite <- Hh']. }
  split; [done|]. by apply crop_whitespace_full_extent.
Qed.

(** C5: when the bounding box of the image is its full extent, the image
    that the run saves has the dimensions of the input. *)
Theorem tight_image_keeps_dimensions
    registry console image_path output_path w img :
  (Image_open registry image_path w).1 = Return (Loads img) →
  PIL.getbbox true (PIL.convert_RGBA img)
  = Some (0, 0, PIL.width img, PIL.height img) →
  ∃ cropped,
    PIL.crop (PIL.convert_RGBA img) (0, 0, PIL.width img, PIL.height img)
    = inr cropped ∧
    PIL.width cropped = PIL.width img ∧
    PIL.height cropped = PIL.height img ∧
    ∀ data,
      encodes registry output_path cropped data →
      writable w output_path = true →
      ∃ res w',
        crop_whitespace registry console image_path output_path w = (res, w') ∧
        files w' = <[output_path := data]> (files w) ∧
        ((∀ text, prints_fine console text) → res = Return ()).
Proof.
  intros Hopen Hbox.
  destruct (crop_whitespace_full_extent registry console image_path output_path
              w img Hopen Hbox) as (cropped & Hcrop & Hsize & Hrun).
  exists cropped. unfold PIL.width, PIL.height. by rewrite Hsize.
Qed.



(** C7, as stated, fails: on a standard output that cannot encode the
    symbol that starts the error line, the print in the handler raises,
    and the process ends with that exception and exit status 1. *)
Lemma main_fails_on_ascii_stdout :
  let w := Sample.world_of ∅ in
  crop_whitespace Sample.registry Sample.ascii input_path output_path w
  = (Raise (FileNotFoundError input_path), w) ∧
  main Sample.registry Sample.ascii w
  = (Raise (UnicodeEncodeError
              "'ascii' codec can't encode characters: ordinal not in range(128)"),
     w) ∧
  exit_status (main Sample.registry Sample.ascii w).1 = 1%Z.
Proof. by vm_compute. Qed.

(** C7, amended: whatever [crop_whitespace] raises, [main] catches it;
    when standard output can encode the error line with the text of the
    exception and the hint, [main] prints the two and ends normally, with
    exit status 0; when it cannot encode the error line, the print in the
    handler raises and [main] ends with that exception. *)
Theorem main_swallows_failures registry console w e w' :
  crop_whitespace registry console input_path output_path w = (Raise e, w') →
  (prints_fine console ("❌ Error: " +:+ str_exn e) →
   prints_fine console
     (String "010"%char
        "💡 Make sure Pillow is installed: pip install Pillow") →
   main registry console w
   = (Return (),
      World (files w') (readable w') (writable w')
        (stdout w'
           ++ ["❌ Error: " +:+ str_exn e;
               String "010"%char
                 "💡 Make sure Pillow is installed: pip install Pillow"])) ∧
   exit_status (main registry console w).1 = 0%Z) ∧
  (∀ msg, encode_error console ("❌ Error: " +:+ str_exn e) = Some msg →
   main registry console w = (Raise (UnicodeEncodeError msg), w') ∧
   exit_status (main registry console w).1 = 1%Z).
Proof.
  intros Hrun. rewrite (main_Raise _ _ _ _ _ Hrun). split.
  - unfold prints_fine. intros Herr Hhint.
    rewrite !print_all_cons, !bind_unfold. unfold print.
    rewrite Herr. cbn [stdout files readable writable add_stdout].
    rewrite bind_unfold. rewrite Hhint. simpl. split; [|done].
    unfold mret, M_ret, add_stdout; simpl. by rewrite <- (assoc_L (++)).
  - intros msg Herr.
    rewrite !print_all_cons, !bind_unfold. unfold print.
    by rewrite Herr.
Qed.

(** C8: a bounding box that is found satisfies left ≤ right, top ≤ bottom
    and lies within the image; and no box is found when no pixel of the
    image counts as content. *)
Theorem getbbox_box_invariant alpha_only img :
  (∀ l t r b,
     PIL.getbbox alpha_only img = Some (l, t, r, b) →
     l ≤ r ∧ t ≤ b ∧ r ≤ PIL.width img ∧ b ≤ PIL.height img) ∧
  ((∀ x y, x < PIL.width img → y < PIL.height img →
           PIL.content_at alpha_only img x y = false) →
   PIL.getbbox alpha_only img = None).
Proof.
  split.
  - intros l t r b Hbox. apply getbbox_Some in Hbox as (? & ? & _). lia.
  - intros Hnone. by apply bbox_scan_None.
Qed.

(** C9: two runs whose worlds hold the same bytes at [image_path], and
    agree on the permissions of the two paths and on whether
    [output_path] exists, compute the same bounding box, end the same
    way, print the same lines, and leave the same bytes at [output_path]
    (or both leave all files as they were). *)
Theorem crop_whitespace_deterministic
    registry console image_path output_path w1 w2 :
  files w1 !! image_path = files w2 !! image_path →
  readable w1 image_path = readable w2 image_path →
  writable w1 output_path = writable w2 output_path →
  (is_Some (files w1 !! output_path) ↔ is_Some (files w2 !! output_path)) →
  let run1 := crop_whitespace registry console image_path output_path w1 in
  let run2 := crop_whitespace registry console image_path output_path w2 in
  bbox_of_run registry image_path w1 = bbox_of_run registry image_path w2 ∧
  run1.1 = run2.1 ∧
  (∃ lines, stdout run1.2 = stdout w1 ++ lines ∧
            stdout run2.2 = stdout w2 ++ lines) ∧
  (files run1.2 !! output_path = files run2.2 !! output_path ∨
   (files run1.2 = files w1 ∧ files run2.2 = files w2)).
Proof.
  intros Hfile Hread Hwrite Hexists run1 run2.
  pose proof (Image_open_agree registry image_path w1 w2 Hfile Hread) as Hopen.
  pose proof (Image_open_world registry image_path w1) as Hw1.
  pose proof (Image_open_world registry image_path w2) as Hw2.
  split.
  { unfold bbox_of_run. rewrite !bind_unfold.
    destruct (Image_open registry image_path w1) as [r1 ?],
      (Image_open registry image_path w2) as [r2 ?]. simpl in *.
    subst. destruct r2 as [[img|mode size e]|e]; done. }
  subst run1 run2. clear Hw1 Hw2.
  destruct (Image_open registry image_path w1).1 as [[img|mode size e]|e]
    eqn:Hopen1; symmetry in Hopen.
  - rewrite !(crop_whitespace_opened _ _ _ _ _ img) by done.
    destruct (PIL.getbbox true (PIL.convert_RGBA img)) as [bbox|].
    + cbv zeta.
      pose proof (Image_save_agree registry
                    (PIL.crop_core bbox (PIL.convert_RGBA img))
                    output_path w1 w2 Hwrite Hexists) as (Hres & Hfiles).
      pose proof (Image_save_frame registry
                    (PIL.crop_core bbox (PIL.convert_RGBA img)) output_path w1)
        as (Hout1 & _).
      pose proof (Image_save_frame registry
                    (PIL.crop_core bbox (PIL.convert_RGBA img)) output_path w2)
        as (Hout2 & _).
      cbv zeta in Hres, Hfiles, Hout1, Hout2.
      destruct (Image_save registry _ output_path w1) as [r1 s1],
        (Image_save registry _ output_path w2) as [r2 s2].
      simpl in Hres, Hfiles, Hout1, Hout2. subst r2.
      destruct r1 as [[]|e].
      * destruct (print_all_outcome console
                    (success_lines output_path (PIL.size img)
                       (PIL.size (PIL.crop_core bbox (PIL.convert_RGBA img)))))
          as (res & printed & Hrun & _).
        rewrite !Hrun. simpl. split; [done|]. split; [|done].
        exists printed. by rewrite Hout1, Hout2.
      * simpl. split; [done|]. split; [|done].
        exists []. by rewrite !app_nil_r.
    + destruct (print_all_outcome console ["❌ Could not find content to crop"])
        as (res & printed & Hrun & _).
      rewrite !Hrun. simpl. split; [done|]. split; [by exists printed|].
      by right.
  - rewrite !(Image_open_Fails _ _ _ _ mode size e) by done. simpl.
    split; [done|]. split; [|by right]. exists []. by rewrite !app_nil_r.
  - rewrite !(Image_open_Raise _ _ _ _ e) by done. simpl.
    split; [done|]. split; [|by right]. exists []. by rewrite !app_nil_r.
Qed.

(** C10: a run leaves every file other than [output_path] as it was; in
    particular, when the two paths differ, the file at [image_path]. *)
Theorem crop_whitespace_frame registry console image_path output_path w :
  let w' := (crop_whitespace registry console image_path output_path w).2 in
  (∀ p, p ≠ output_path → files w' !! p = files w !! p) ∧
  (image_path ≠ output_path → files w' !! image_path = files w !! image_path).
Proof.
  cbv zeta. split.
  - intros p Hp. by apply crop_whitespace_other_files.
  - intros Hne. by apply crop_whitespace_other_files.
Qed.

(** ** The properties on sample files *)

Lemma sample_RAW_encodes fp img data :
  splitext_lower Sample.registry fp = ".raw" →
  Sample.raw_encode img = (data, None) →
  encodes Sample.registry fp img data.
Proof.
  intros Hext Henc. exists "RAW", Sample.raw_encode.
  split; [by rewrite Hext|]. by split.
Qed.

Lemma utf8_prints_fine text : prints_fine Sample.utf8 text.
Proof. done. Qed.

Lemma crop_whitespace_crops_to_bbox_witness :
  let w := Sample.world_with Sample.padded in
  let cropped := PIL.crop_core (3, 1, 5, 4) (PIL.convert_RGBA Sample.padded) in
  (Image_open Sample.registry "in.raw" w).1 = Return (Loads Sample.padded) ∧
  PIL.getbbox true (PIL.convert_RGBA Sample.padded) = Some (3, 1, 5, 4) ∧
  PIL.size cropped = (2, 3) ∧
  files w !! "out.raw" = Some [x00] ∧
  ∃ w', crop_whitespace Sample.registry Sample.utf8 "in.raw" "out.raw" w
        = (Return (), w') ∧
        files w' = <["out.raw" := Sample.file_of cropped]> (files w).
Proof.
  cbv zeta.
  assert (Hopen : (Image_open Sample.registry "in.raw"
                     (Sample.world_with Sample.padded)).1
                  = Return (Loads Sample.padded)) by (vm_compute; reflexivity).
  assert (Hbox : PIL.getbbox true (PIL.convert_RGBA Sample.padded)
                 = Some (3, 1, 5, 4)) by (vm_compute; reflexivity).
  split; [exact Hopen|]. split; [exact Hbox|].
  split; [reflexivity|]. split; [vm_compute; reflexivity|].
  destruct (crop_whitespace_crops_to_bbox Sample.registry Sample.utf8
              "in.raw" "out.raw" _ _ _ _ _ _ Hopen Hbox)
    as (cropped & Hcrop & _ & _ & Hrun).
  vm_compute in Hcrop. injection Hcrop as <-.
  destruct (Hrun (Sample.file_of
                    (PIL.crop_core (3, 1, 5, 4)
                       (PIL.convert_RGBA Sample.padded))))
    as (res & w' & Hres & Hfiles & Hfine).
  - apply sample_RAW_encodes; vm_compute; reflexivity.
  - reflexivity.
  - exists w'. rewrite Hres, (Hfine utf8_prints_fine). by split.
Defined.


Lemma solid_red_opaque x y :
  x < PIL.width Sample.solid_red → y < PIL.height Sample.solid_red →
  PIL.alpha_at (PIL.convert_RGBA Sample.solid_red) x y = Some 255%Z.
Proof.
  change (PIL.width Sample.solid_red) with 3.
  change (PIL.height Sample.solid_red) with 2.
  intros Hx Hy. each_pixel_3x2 x y; by vm_compute.
Qed.

Lemma opaque_image_bbox_is_full_extent_witness :
  let w := Sample.world_with Sample.solid_red in
  let cropped := PIL.crop_core (0, 0, 3, 2) (PIL.convert_RGBA Sample.solid_red) in
  (Image_open Sample.registry "in.raw" w).1 = Return (Loads Sample.solid_red) ∧
  PIL.getbbox true (PIL.convert_RGBA Sample.solid_red) = Some (0, 0, 3, 2) ∧
  PIL.size cropped = PIL.size Sample.solid_red ∧
  ∃ w', crop_whitespace Sample.registry Sample.utf8 "in.raw" "out.raw" w
        = (Return (), w') ∧
        files w' = <["out.raw" := Sample.file_of cropped]> (files w).
Proof.
  cbv zeta.
  assert (Hopen : (Image_open Sample.registry "in.raw"
                     (Sample.world_with Sample.solid_red)).1
                  = Return (Loads Sample.solid_red)) by (vm_compute; reflexivity).
  split; [exact Hopen|].
  destruct (opaque_image_bbox_is_full_extent Sample.registry Sample.utf8
              "in.raw" "out.raw" _ _ Hopen solid_red_opaque)
    as (Hbox & cropped & Hcrop & _ & Hrun).
  split; [exact Hbox|]. split; [reflexivity|].
  vm_compute in Hcrop. injection Hcrop as <-.
  destruct (Hrun (Sample.file_of
                    (PIL.crop_core (0, 0, 3, 2)
                       (PIL.convert_RGBA Sample.solid_red))))
    as (res & w' & Hres & Hfiles & Hfine).
  - apply sample_RAW_encodes; vm_compute; reflexivity.
  - reflexivity.
  - exists w'. rewrite Hres, (Hfine utf8_prints_fine). by split.
Defined.

Lemma tight_image_keeps_dimensions_witness :
  let w := Sample.world_only Sample.solid_red in
  let cropped := PIL.crop_core (0, 0, 3, 2) (PIL.convert_RGBA Sample.solid_red) in
  (Image_open Sample.registry "in.raw" w).1 = Return (Loads Sample.solid_red) ∧
  PIL.getbbox true (PIL.convert_RGBA Sample.solid_red) = Some (0, 0, 3, 2) ∧
  PIL.width cropped = 3 ∧ PIL.height cropped = 2 ∧
  ∃ w', crop_whitespace Sample.registry Sample.utf8 "in.raw" "in.raw" w
        = (Return (), w') ∧
        files w' = <["in.raw" := Sample.file_of cropped]> (files w).
Proof.
  cbv zeta.
  assert (Hopen : (Image_open Sample.registry "in.raw"
                     (Sample.world_only Sample.solid_red)).1
                  = Return (Loads Sample.solid_red)) by (vm_compute; reflexivity).
  assert (Hbox : PIL.getbbox true (PIL.convert_RGBA Sample.solid_red)
                 = Some (0, 0, PIL.width Sample.solid_red,
                         PIL.height Sample.solid_red))
    by (vm_compute; reflexivity).
  split; [exact Hopen|]. split; [exact Hbox|].
  split; [reflexivity|]. split; [reflexivity|].
  destruct (tight_image_keeps_dimensions Sample.registry Sample.utf8
              "in.raw" "in.raw" _ _ Hopen Hbox)
    as (cropped & Hcrop & _ & _ & Hrun).
  vm_compute in Hcrop. injection Hcrop as <-.
  destruct (Hrun (Sample.file_of
                    (PIL.crop_core (0, 0, 3, 2)
                       (PIL.convert_RGBA Sample.solid_red))))
    as (res & w' & Hres & Hfiles & Hfine).
  - apply sample_RAW_encodes; vm_compute; reflexivity.
  - reflexivity.
  - exists w'. rewrite Hres, (Hfine utf8_prints_fine). by split.
Defined.


Lemma main_swallows_failures_witness :
  let w := Sample.world_of ∅ in
  crop_whitespace Sample.registry Sample.utf8 input_path output_path w
  = (Raise (FileNotFoundError input_path), w) ∧
  main Sample.registry Sample.utf8 w
  = (Return (),
     World ∅ (readable w) (writable w)
       ["❌ Error: [Errno 2] No such file or directory: 'scripts/public/hsbc_logo.png'";
        String "010"%char
          "💡 Make sure Pillow is installed: pip install Pillow"]) ∧
  exit_status (main Sample.registry Sample.utf8 w).1 = 0%Z.
Proof.
  cbv zeta.
  assert (Hrun : crop_whitespace Sample.registry Sample.utf8
                   input_path output_path (Sample.world_of ∅)
                 = (Raise (FileNotFoundError input_path), Sample.world_of ∅))
    by (vm_compute; reflexivity).
  split; [exact Hrun|].
  apply (proj1 (main_swallows_failures Sample.registry Sample.utf8 _ _ _ Hrun));
    reflexivity.
Defined.

Lemma getbbox_box_invariant_witness :
  (PIL.getbbox true Sample.padded = Some (3, 1, 5, 4) ∧
   3 ≤ 5 ∧ 1 ≤ 4 ∧ 5 ≤ PIL.width Sample.padded ∧ 4 ≤ PIL.height Sample.padded) ∧
  PIL.getbbox true Sample.transparent = None.
Proof.
  split.
  - assert (Hbox : PIL.getbbox true Sample.padded = Some (3, 1, 5, 4))
      by (vm_compute; reflexivity).
    split; [exact Hbox|].
    exact (proj1 (getbbox_box_invariant true Sample.padded) 3 1 5 4 Hbox).
  - apply (proj2 (getbbox_box_invariant true Sample.transparent)).
    change (PIL.width Sample.transparent) with 3.
    change (PIL.height Sample.transparent) with 2.
    intros x y Hx Hy. each_pixel_3x2 x y; by vm_compute.
Defined.

Lemma crop_whitespace_deterministic_witness :
  let w1 := Sample.world_only Sample.padded in
  let w2 := Sample.world_busy Sample.padded in
  let run1 := crop_whitespace Sample.registry Sample.utf8 "in.raw" "out.raw" w1 in
  let run2 := crop_whitespace Sample.registry Sample.utf8 "in.raw" "out.raw" w2 in
  files w1 !! "in.raw" = files w2 !! "in.raw" ∧
  files w1 ≠ files w2 ∧
  bbox_of_run Sample.registry "in.raw" w1 = bbox_of_run Sample.registry "in.raw" w2 ∧
  run1.1 = run2.1 ∧
  (∃ lines, stdout run1.2 = stdout w1 ++ lines ∧
            stdout run2.2 = stdout w2 ++ lines) ∧
  (files run1.2 !! "out.raw" = files run2.2 !! "out.raw" ∨
   (files run1.2 = files w1 ∧ files run2.2 = files w2)).
Proof.
  cbv zeta.
  assert (Hfile : files (Sample.world_only Sample.padded) !! "in.raw"
                  = files (Sample.world_busy Sample.padded) !! "in.raw")
    by (vm_compute; reflexivity).
  split; [exact Hfile|]. split.
  { intros Heq. apply (f_equal (λ fs, fs !! "notes.txt")) in Heq.
    vm_compute in Heq. discriminate. }
  apply (crop_whitespace_deterministic Sample.registry Sample.utf8
           "in.raw" "out.raw" _ _ Hfile); [reflexivity|reflexivity|].
  split; intros [data Hdata]; vm_compute in Hdata; discriminate.
Defined.

Lemma crop_whitespace_frame_witness :
  let w := Sample.world_busy Sample.padded in
  let w' := (crop_whitespace Sample.registry Sample.utf8 "in.raw" "out.raw" w).2 in
  is_Some (files w' !! "out.raw") ∧
  files w' !! "notes.txt" = files w !! "notes.txt" ∧
  files w' !! "in.raw" = files w !! "in.raw".
Proof.
  cbv zeta. split; [vm_compute; by eexists|].
  pose proof (crop_whitespace_frame Sample.registry Sample.utf8 "in.raw" "out.raw"
                (Sample.world_busy Sample.padded)) as [Hother Hinput].
  split; [apply Hother|apply Hinput]; discriminate.
Defined.

(** ** Sample runs *)

(** Without the conversion a black RGB image would have no bounding box;
    the script computes the box after the conversion. *)
Example black_needs_conversion :
  PIL.getbbox true Sample.black = None ∧
  PIL.getbbox true (PIL.convert_RGBA Sample.black) = Some (0, 0, 3, 2).
Proof. by vm_compute. Qed.

(** A white border that is the colour key of the image is transparent
    after the conversion, and outside the bounding box. *)
Example keyed_border_is_outside_bbox :
  PIL.getbbox true (PIL.convert_RGBA Sample.keyed) = Some (3, 1, 5, 4) ∧
  PIL.alpha_at (PIL.convert_RGBA Sample.keyed) 0 0 = Some 0%Z ∧
  PIL.alpha_at (PIL.convert_RGBA Sample.keyed) 3 1 = Some 255%Z.
Proof. by vm_compute. Qed.

(** Saving in place: afterwards the file decodes to the cropped size. *)
Example in_place_overwrite :
  let run := crop_whitespace Sample.registry Sample.utf8 "in.raw" "in.raw"
               (Sample.world_only Sample.padded) in
  run.1 = Return () ∧
  file_size <$> (files run.2 !! "in.raw" ≫= Sample.raw_decode) = Some (2, 3) ∧
  stdout run.2 = ["✅ Logo cropped successfully!";
                  "   Original size: (6, 5)";
                  "   Cropped size: (2, 3)";
                  "   Saved to: in.raw"].
Proof. by vm_compute. Qed.

(** The failures of a run: a file that is no image, a file whose pixels
    end early, a path that may not be written, an extension without
    format, a format without encoder, and an encoder that rejects the
    mode, on a new and on an existing file. *)
Example decode_error :
  let w := Sample.world_of {[ "in.raw" := [x00; x01] ]} in
  crop_whitespace Sample.registry Sample.utf8 "in.raw" "out.raw" w
  = (Raise (UnidentifiedImageError "in.raw"), w).
Proof. by vm_compute. Qed.

(** The header of a truncated file is accepted by [Image.open]; the error
    comes from the first operation that needs the pixels: the conversion
    of an RGB file, [getbbox] of an RGBA file. *)
Example truncated_RGB_file :
  let w := Sample.world_of {[ "in.raw" := [x03; x02; x01; xff; x00; x00] ]} in
  (Image_open Sample.registry "in.raw" w).1
  = Return (Fails PIL.RGB (2, 1) Sample.truncated) ∧
  crop_whitespace Sample.registry Sample.utf8 "in.raw" "out.raw" w
  = (Raise Sample.truncated, w).
Proof. by vm_compute. Qed.

Example truncated_RGBA_file :
  let data := [x04; x02; x01; xff; x00; x00; xff] in
  (Image_open Sample.registry "in.raw"
     (Sample.world_of {[ "in.raw" := data ]})).1
  = Return (Fails PIL.RGBA (2, 1) Sample.truncated) ∧
  main Sample.registry Sample.utf8 (Sample.world_of {[ input_path := data ]})
  = (Return (),
     World {[ input_path := data ]} (λ _, true) (λ _, true)
       ["❌ Error: image file is truncated";
        String "010"%char
          "💡 Make sure Pillow is installed: pip install Pillow"]).
Proof. by vm_compute. Qed.

Example permission_error :
  let w := Sample.locked (Sample.world_with Sample.padded) in
  crop_whitespace Sample.registry Sample.utf8 "in.raw" "out.raw" w
  = (Raise (PermissionError "out.raw"), w).
Proof. by vm_compute. Qed.

Example unknown_extension :
  let w := Sample.world_only Sample.padded in
  crop_whitespace Sample.registry Sample.utf8 "in.raw" "out.xyz" w
  = (Raise (ValueError "unknown file extension: .xyz"), w).
Proof. by vm_compute. Qed.

Example no_encoder :
  let w := Sample.world_only Sample.padded in
  crop_whitespace Sample.registry Sample.utf8 "in.raw" "out.psd" w
  = (Raise (KeyError "PSD"), w).
Proof. by vm_compute. Qed.

Example encode_error_new_file :
  let w := Sample.world_only Sample.padded in
  let run := crop_whitespace Sample.registry Sample.utf8 "in.raw" "out.jpg" w in
  run.1 = Raise (OSError "cannot write mode RGBA as JPEG") ∧
  files run.2 !! "out.jpg" = None ∧ stdout run.2 = [].
Proof. by vm_compute. Qed.

Example encode_error_existing_file :
  let w := Sample.world_of {[ "in.raw" := Sample.file_of Sample.padded;
                               "out.jpg" := [x41; x42] ]} in
  let run := crop_whitespace Sample.registry Sample.utf8 "in.raw" "out.jpg" w in
  run.1 = Raise (OSError "cannot write mode RGBA as JPEG") ∧
  files run.2 !! "out.jpg" = Some [] ∧ stdout run.2 = [].
Proof. by vm_compute. Qed.

(** On a standard output that encodes ASCII only, the first line of the
    report cannot be printed: the cropped file is saved, nothing is
    printed, and the run ends with the encoding error. *)
Example ascii_stdout_after_save :
  let w := Sample.world_only Sample.padded in
  let run := crop_whitespace Sample.registry Sample.ascii "in.raw" "out.raw" w in
  run.1 = Raise (UnicodeEncodeError
            "'ascii' codec can't encode characters: ordinal not in range(128)") ∧
  file_size <$> (files run.2 !! "out.raw" ≫= Sample.raw_decode) = Some (2, 3) ∧
  stdout run.2 = [].
Proof. by vm_compute. Qed.

(** The entry point on a logo with a transparent border, and on a file
    that is no image. *)
Example main_crops_in_place :
  let w := Sample.world_of {[ input_path := Sample.file_of Sample.padded ]} in
  let run := main Sample.registry Sample.utf8 w in
  run.1 = Return () ∧
  file_size <$> (files run.2 !! output_path ≫= Sample.raw_decode) = Some (2, 3) ∧
  stdout run.2 = ["✅ Logo cropped successfully!";
                  "   Original size: (6, 5)";
                  "   Cropped size: (2, 3)";
                  "   Saved to: scripts/public/hsbc_logo.png"].
Proof. by vm_compute. Qed.

Example main_reports_decode_error :
  let w := Sample.world_of {[ input_path := [x00; x01] ]} in
  main Sample.registry Sample.utf8 w
  = (Return (),
     World (files w) (readable w) (writable w)
       ["❌ Error: cannot identify image file 'scripts/public/hsbc_logo.png'";
        String "010"%char
          "💡 Make sure Pillow is installed: pip install Pillow"]).
Proof. by vm_compute. Qed.

(** ** More on the outcome of a run *)

Section OutcomeFacts.
Variable registry : Registry.
Variable console : Console.

(** A run that reports no content has found no bounding box, whatever
    standard output can encode. *)
Lemma no_content_no_bbox image_path output_path w img :
  (Image_open registry image_path w).1 = Return (Loads img) →
  reports_no_content registry console image_path output_path w →
  PIL.getbbox true (PIL.convert_RGBA img) = None.
Proof.
  intros Hopen. unfold reports_no_content.
  rewrite (crop_whitespace_opened _ _ _ _ _ img) by done.
  destruct (PIL.getbbox true (PIL.convert_RGBA img)) as [bbox|]; [|done].
  cbv zeta.
  pose proof (Image_save_frame registry
                (PIL.crop_core bbox (PIL.convert_RGBA img)) output_path w)
    as (Hout & _).
  destruct (Image_save registry _ output_path w) as [[[]|e] w1];
    [|discriminate].
  simpl in Hout. intros Hrun. apply print_all_Return in Hrun.
  apply (f_equal (λ w, length (stdout w))) in Hrun. simpl in Hrun.
  rewrite Hout, !length_app in Hrun. simpl in Hrun. lia.
Qed.


(** The outcomes of opening the input. *)
Lemma Image_open_cases fp w :
  (∃ e, (Image_open registry fp w).1 = Raise e) ∨
  (∃ mode size e, (Image_open registry fp w).1 = Return (Fails mode size e)) ∨
  (∃ img, (Image_open registry fp w).1 = Return (Loads img)).
Proof.
  destruct (Image_open registry fp w) as [[[img|mode size e]|e] w'].
  - right; right. by exists img.
  - right; left. by exists mode, size, e.
  - left. by exists e.
Qed.
End OutcomeFacts.

(** ** Further properties of the cropper *)

(** X1: the image that is cropped out has mode RGBA, is not empty, and
    has no fully transparent border: its first and last column and its
    first and last row each hold a pixel whose alpha is not 0. *)
Theorem cropped_image_is_tight img l t r b cropped :
  PIL.getbbox true (PIL.convert_RGBA img) = Some (l, t, r, b) →
  PIL.crop (PIL.convert_RGBA img) (l, t, r, b) = inr cropped →
  PIL.mode_of cropped = PIL.RGBA ∧
  0 < PIL.width cropped ∧ 0 < PIL.height cropped ∧
  (∃ y a, y < PIL.height cropped ∧
          PIL.alpha_at cropped 0 y = Some a ∧ a ≠ 0%Z) ∧
  (∃ y a, y < PIL.height cropped ∧
          PIL.alpha_at cropped (PIL.width cropped - 1) y = Some a ∧ a ≠ 0%Z) ∧
  (∃ x a, x < PIL.width cropped ∧
          PIL.alpha_at cropped x 0 = Some a ∧ a ≠ 0%Z) ∧
  (∃ x a, x < PIL.width cropped ∧
          PIL.alpha_at cropped x (PIL.height cropped - 1) = Some a ∧ a ≠ 0%Z).
Proof.
  intros Hbox Hcrop. apply crop_inr in Hcrop as [-> _].
  set (cropped := PIL.crop_core (l, t, r, b) (PIL.convert_RGBA img)).
  assert (Hmode : PIL.mode_of cropped = PIL.RGBA)
    by (unfold cropped; by rewrite crop_core_mode, convert_RGBA_mode).
  pose proof (crop_core_size (PIL.convert_RGBA img) l t r b) as Hsize.
  assert (Hw : PIL.width cropped = r - l)
    by (unfold PIL.width, cropped; by rewrite Hsize).
  assert (Hh : PIL.height cropped = b - t)
    by (unfold PIL.height, cropped; by rewrite Hsize).
  pose proof (getbbox_Some _ _ _ _ _ _ Hbox) as (Hlr & Htb & _).
  apply getbbox_crop_core in Hbox. fold cropped in Hbox.
  apply bbox_scan_Some in Hbox
    as (_ & _ & _ & (y1 & Hy1 & Hd1) & (x2 & y2 & Hx2 & Hy2 & Hd2)
        & (x3 & Hx3 & Hd3) & (x4 & y4 & Hy4 & Hx4 & Hd4)).
  apply content_at_alpha in Hd1 as (a1 & Ha1 & ?); [|done].
  apply content_at_alpha in Hd2 as (a2 & Ha2 & ?); [|done].
  apply content_at_alpha in Hd3 as (a3 & Ha3 & ?); [|done].
  apply content_at_alpha in Hd4 as (a4 & Ha4 & ?); [|done].
  rewrite Hw, Hh. rewrite Hw in Hx3, Hx4.
  split; [done|]. split; [lia|]. split; [lia|].
  split; [exists y1, a1; split; [lia|done]|].
  split.
  { exists y2, a2. split; [lia|]. split; [|done].
    by replace (r - l - 1) with x2 by lia. }
  split; [exists x3, a3; split; [lia|done]|].
  exists x4, a4. split; [lia|]. split; [|done].
  by replace (b - t - 1) with y4 by lia.
Qed.

(** X2: no content is lost: every pixel of the converted image whose
    alpha is not 0 lies in the box and shows in the crop, moved by the
    corner of the box, with its colour and its alpha. *)
Theorem content_is_kept img l t r b cropped x y a :
  PIL.getbbox true (PIL.convert_RGBA img) = Some (l, t, r, b) →
  PIL.crop (PIL.convert_RGBA img) (l, t, r, b) = inr cropped →
  x < PIL.width img → y < PIL.height img →
  PIL.alpha_at (PIL.convert_RGBA img) x y = Some a → a ≠ 0%Z →
  l ≤ x < r ∧ t ≤ y < b ∧
  PIL.alpha_at cropped (x - l) (y - t) = Some a ∧
  PIL.colour_at cropped (x - l) (y - t)
  = PIL.colour_at (PIL.convert_RGBA img) x y.
Proof.
  intros Hbox Hcrop Hx Hy Ha Hne. apply crop_inr in Hcrop as [-> _].
  apply getbbox_Some in Hbox as (_ & _ & Hin).
  unfold PIL.width, PIL.height in Hin. rewrite convert_RGBA_size in Hin.
  destruct (Hin x y Hx Hy) as [Hxb Hyb].
  { apply content_at_alpha; [apply convert_RGBA_mode|by exists a]. }
  split; [done|]. split; [done|]. by apply crop_core_pixel.
Qed.

(** X3: cropping is idempotent: on the cropped image the script finds
    the full extent as bounding box and crops out the same image. *)
Theorem second_crop_changes_nothing img l t r b cropped :
  PIL.getbbox true (PIL.convert_RGBA img) = Some (l, t, r, b) →
  PIL.crop (PIL.convert_RGBA img) (l, t, r, b) = inr cropped →
  let again := if decide (PIL.mode_of cropped ≠ PIL.RGBA)
               then PIL.convert_RGBA cropped else cropped in
  again = cropped ∧
  PIL.getbbox true again
  = Some (0, 0, PIL.width cropped, PIL.height cropped) ∧
  PIL.crop again (0, 0, PIL.width cropped, PIL.height cropped) = inr cropped.
Proof.
  intros Hbox Hcrop again. apply crop_inr in Hcrop as [-> Hbomb].
  set (cropped := PIL.crop_core (l, t, r, b) (PIL.convert_RGBA img)) in *.
  assert (Hmode : PIL.mode_of cropped = PIL.RGBA)
    by (unfold cropped; by rewrite crop_core_mode, convert_RGBA_mode).
  assert (Hagain : again = cropped).
  { subst again. rewrite convert_if_needed. by apply convert_RGBA_id. }
  pose proof (crop_core_size (PIL.convert_RGBA img) l t r b) as Hsize.
  fold cropped in Hsize.
  assert (Hw : PIL.width cropped = r - l) by (unfold PIL.width; by rewrite Hsize).
  assert (Hh : PIL.height cropped = b - t) by (unfold PIL.height; by rewrite Hsize).
  assert (Hbox' : PIL.getbbox true cropped = Some (0, 0, r - l, b - t))
    by by apply getbbox_crop_core.
  rewrite Hagain, Hw, Hh. split; [done|]. split; [done|].
  rewrite (crop_getbbox true cropped (0, 0, r - l, b - t)) by done.
  unfold cropped. by rewrite crop_core_again.
Qed.


(** X5: the run reports that it found no content exactly when every
    pixel of the converted image has alpha 0, on a standard output that
    can encode the line. On any standard output, a run that reports no
    content found every pixel with alpha 0, and a run on such an image
    does nothing but print the line. *)
Theorem no_content_iff_fully_transparent
    registry console image_path output_path w img :
  (Image_open registry image_path w).1 = Return (Loads img) →
  let transparent :=
    ∀ x y a, x < PIL.width img → y < PIL.height img →
             PIL.alpha_at (PIL.convert_RGBA img) x y = Some a → a = 0%Z in
  (reports_no_content registry console image_path output_path w →
   transparent) ∧
  (transparent →
   crop_whitespace registry console image_path output_path w
   = print console "❌ Could not find content to crop" w) ∧
  (prints_fine console "❌ Could not find content to crop" →
   (reports_no_content registry console image_path output_path w ↔
    transparent)).
Proof.
  intros Hopen transparent.
  assert (Hnone : PIL.getbbox true (PIL.convert_RGBA img) = None ↔ transparent).
  { unfold transparent, PIL.getbbox. rewrite bbox_scan_None.
    unfold PIL.width, PIL.height. rewrite convert_RGBA_size.
    split.
    - intros Hnone x y a Hx Hy Ha.
      destruct (decide (a = 0%Z)) as [|Hne]; [done|].
      assert (PIL.content_at true (PIL.convert_RGBA img) x y = true) as Hd.
      { apply content_at_alpha; [apply convert_RGBA_mode|by exists a]. }
      by rewrite Hnone in Hd.
    - intros Hzero x y Hx Hy.
      destruct (PIL.content_at true (PIL.convert_RGBA img) x y) eqn:Hd; [|done].
      apply content_at_alpha in Hd as (a & Ha & Hne);
        [|apply convert_RGBA_mode].
      by specialize (Hzero x y a Hx Hy Ha). }
  split; [|split].
  - intros Hrep. apply Hnone. by eapply no_content_no_bbox.
  - intros Htr. apply Hnone in Htr.
    rewrite (crop_whitespace_opened _ _ _ _ _ img) by done.
    rewrite Htr. symmetry. apply print_one.
  - intros Hfine. rewrite <- Hnone. by apply no_content_iff_no_bbox.
Qed.

(** X6: transparent margins are cut off: when the [ml] leftmost and [mr]
    rightmost columns and the [mt] topmost and [mb] bottommost rows of
    the converted image are fully transparent, the box lies inside them
    and the crop is smaller by at least the margins. *)
Theorem transparent_margins_are_removed img l t r b cropped ml mt mr mb :
  PIL.getbbox true (PIL.convert_RGBA img) = Some (l, t, r, b) →
  PIL.crop (PIL.convert_RGBA img) (l, t, r, b) = inr cropped →
  (∀ x y a, x < PIL.width img → y < PIL.height img →
            x < ml ∨ PIL.width img - mr ≤ x ∨
            y < mt ∨ PIL.height img - mb ≤ y →
            PIL.alpha_at (PIL.convert_RGBA img) x y = Some a → a = 0%Z) →
  ml ≤ l ∧ mt ≤ t ∧ r ≤ PIL.width img - mr ∧ b ≤ PIL.height img - mb ∧
  PIL.width cropped ≤ PIL.width img - ml - mr ∧
  PIL.height cropped ≤ PIL.height img - mt - mb.
Proof.
  intros Hbox Hcrop Hmargin. apply crop_inr in Hcrop as [-> _].
  pose proof (crop_core_size (PIL.convert_RGBA img) l t r b) as Hsize.
  assert (Hcw : PIL.width (PIL.crop_core (l, t, r, b) (PIL.convert_RGBA img))
                = r - l) by (unfold PIL.width; by rewrite Hsize).
  assert (Hch : PIL.height (PIL.crop_core (l, t, r, b) (PIL.convert_RGBA img))
                = b - t) by (unfold PIL.height; by rewrite Hsize).
  rewrite Hcw, Hch. clear Hsize Hcw Hch.
  assert (Hm : PIL.mode_of (PIL.convert_RGBA img) = PIL.RGBA)
    by apply convert_RGBA_mode.
  unfold PIL.getbbox in Hbox.
  apply bbox_scan_Some in Hbox
    as (Hlr & Htb & _ & (y1 & Hy1 & Hd1) & (x2 & y2 & -> & Hy2 & Hd2)
        & (x3 & Hx3 & Hd3) & (x4 & y4 & -> & Hx4 & Hd4)).
  assert (PIL.width (PIL.convert_RGBA img) = PIL.width img) as Hwi
    by (unfold PIL.width; by rewrite convert_RGBA_size).
  assert (PIL.height (PIL.convert_RGBA img) = PIL.height img) as Hhi
    by (unfold PIL.height; by rewrite convert_RGBA_size).
  rewrite Hwi in Hlr, Hx3, Hx4. rewrite Hhi in Htb.
  apply content_at_alpha in Hd1 as (a1 & Ha1 & Hn1); [|done].
  apply content_at_alpha in Hd2 as (a2 & Ha2 & Hn2); [|done].
  apply content_at_alpha in Hd3 as (a3 & Ha3 & Hn3); [|done].
  apply content_at_alpha in Hd4 as (a4 & Ha4 & Hn4); [|done].
  assert (Hout : ∀ x y a, x < PIL.width img → y < PIL.height img →
            PIL.alpha_at (PIL.convert_RGBA img) x y = Some a → a ≠ 0%Z →
            ml ≤ x < PIL.width img - mr ∧ mt ≤ y < PIL.height img - mb).
  { intros x y a Hx Hy Ha Hne.
    destruct (decide (x < ml ∨ PIL.width img - mr ≤ x ∨
                      y < mt ∨ PIL.height img - mb ≤ y)) as [Hin|Hnot]; [|lia].
    by specialize (Hmargin x y a Hx Hy Hin Ha). }
  pose proof (Hout l y1 a1 ltac:(lia) ltac:(lia) Ha1 Hn1).
  pose proof (Hout x2 y2 a2 ltac:(lia) ltac:(lia) Ha2 Hn2).
  pose proof (Hout x3 t a3 ltac:(lia) ltac:(lia) Ha3 Hn3).
  pose proof (Hout x4 y4 a4 ltac:(lia) ltac:(lia) Ha4 Hn4).
  lia.
Qed.

(** X7: an input that is missing, may not be read, or is no image makes
    the run raise the matching exception; an input whose header is
    accepted but whose pixels cannot be loaded makes the run raise the
    error of the load. In each case nothing is printed or written. *)
Theorem input_errors_leave_world registry console image_path output_path w :
  (files w !! image_path = None →
   crop_whitespace registry console image_path output_path w
   = (Raise (FileNotFoundError image_path), w)) ∧
  (∀ data, files w !! image_path = Some data →
     readable w image_path = false →
     crop_whitespace registry console image_path output_path w
     = (Raise (PermissionError image_path), w)) ∧
  (∀ data, files w !! image_path = Some data →
     readable w image_path = true →
     OPEN registry data = None →
     crop_whitespace registry console image_path output_path w
     = (Raise (UnidentifiedImageError image_path), w)) ∧
  (∀ data mode size e, files w !! image_path = Some data →
     readable w image_path = true →
     OPEN registry data = Some (Fails mode size e) →
     0 < size.1 → 0 < size.2 →
     PIL.decompression_bomb_check size = None →
     crop_whitespace registry console image_path output_path w
     = (Raise e, w)).
Proof.
  split; [|split; [|split]].
  - intros Hfile. apply Image_open_Raise.
    unfold Image_open, mbind, M_bind, read_binary. by rewrite Hfile.
  - intros data Hfile Hread. apply Image_open_Raise.
    unfold Image_open, mbind, M_bind, read_binary. by rewrite Hfile, Hread.
  - intros data Hfile Hread Hdec. apply Image_open_Raise.
    unfold Image_open, mbind, M_bind, read_binary.
    by rewrite Hfile, Hread, Hdec.
  - intros data mode size e Hfile Hread Hdec Hw Hh Hbomb.
    apply (Image_open_Fails _ _ _ _ mode size).
    unfold Image_open, mbind, M_bind, read_binary.
    rewrite Hfile, Hread, Hdec. simpl.
    rewrite bool_decide_eq_true_2 by done. by rewrite Hbomb.
Qed.

(** X8: when the extension of [output_path] has no format, the format no
    encoder, or the path may not be written, the run raises after the
    crop and before touching the file: nothing is printed or written. *)
Theorem refused_save_leaves_world
    registry console image_path output_path w img bbox :
  (Image_open registry image_path w).1 = Return (Loads img) →
  PIL.getbbox true (PIL.convert_RGBA img) = Some bbox →
  let ext := splitext_lower registry output_path in
  (EXTENSION registry ext = None →
   crop_whitespace registry console image_path output_path w
   = (Raise (ValueError ("unknown file extension: " +:+ ext)), w)) ∧
  (∀ format, EXTENSION registry ext = Some format →
     SAVE registry format = None →
     crop_whitespace registry console image_path output_path w
     = (Raise (KeyError format), w)) ∧
  (∀ format save_handler, EXTENSION registry ext = Some format →
     SAVE registry format = Some save_handler →
     writable w output_path = false →
     crop_whitespace registry console image_path output_path w
     = (Raise (PermissionError output_path), w)).
Proof.
  intros Hopen Hbox ext.
  rewrite (crop_whitespace_opened _ _ _ _ _ img) by done. rewrite Hbox.
  cbv zeta. unfold Image_save. fold ext.
  split; [|split].
  - by intros ->.
  - by intros format -> ->.
  - intros format handler -> -> Hwrite.
    unfold mbind, M_bind, path_exists, open_truncate. by rewrite Hwrite.
Qed.

(** X9: when the encoder fails, the run raises its exception and prints
    nothing; a file that was at [output_path] is replaced by what the
    encoder wrote before it failed, so a run in place loses its input;
    a file that was not there is not left behind. *)
Theorem failed_encoder_replaces_output
    registry console image_path output_path w img bbox format save_handler
    data e :
  (Image_open registry image_path w).1 = Return (Loads img) →
  PIL.getbbox true (PIL.convert_RGBA img) = Some bbox →
  EXTENSION registry (splitext_lower registry output_path) = Some format →
  SAVE registry format = Some save_handler →
  save_handler (PIL.crop_core bbox (PIL.convert_RGBA img)) = (data, Some e) →
  writable w output_path = true →
  ∃ w', crop_whitespace registry console image_path output_path w
        = (Raise e, w') ∧
        stdout w' = stdout w ∧
        (is_Some (files w !! output_path) →
         files w' = <[output_path := data]> (files w)) ∧
        (files w !! output_path = None → files w' = files w) ∧
        (output_path = image_path → files w' !! image_path = Some data).
Proof.
  intros Hopen Hbox Hext Hsave Henc Hwrite.
  pose proof (Image_open_Loads _ _ _ _ Hopen)
    as (_ & (data0 & Hfile & _) & _).
  rewrite (crop_whitespace_opened _ _ _ _ _ img) by done. rewrite Hbox.
  cbv zeta. unfold Image_save.
  rewrite Hext, Hsave.
  unfold mbind, M_bind, path_exists, open_truncate, write_binary, os_remove,
    raise, mret, M_ret.
  rewrite Hwrite, Henc. simpl.
  destruct (files w !! output_path) as [old|] eqn:Hold.
  - rewrite bool_decide_eq_true_2 by by eexists. simpl.
    eexists. split; [done|]. simpl. split; [done|].
    split; [by rewrite insert_insert_eq|]. split; [done|].
    intros <-. by rewrite insert_insert_eq, lookup_insert_eq.
  - rewrite bool_decide_eq_false_2 by by intros [? ?]. simpl.
    eexists. split; [done|]. simpl. split; [done|].
    split; [by intros [? ?]|].
    split; [by rewrite insert_insert_eq, delete_insert_id|].
    intros ->. congruence.
Qed.


(** X11: the entry point changes no file other than the logo. *)
Theorem main_frame registry console w p :
  p ≠ output_path →
  files (main registry console w).2 !! p = files w !! p.
Proof.
  intros Hp. rewrite main_files.
  by apply crop_whitespace_other_files.
Qed.

(** X12: the report is truthful: a run that returns has either printed
    only that no content was found and changed nothing else, or printed
    the four lines of a crop, with the sizes of the input and of the
    crop, after the file at [output_path] was replaced by the encoded
    crop. *)
Theorem returned_run_reports_what_it_did
    registry console image_path output_path w w' :
  crop_whitespace registry console image_path output_path w = (Return (), w') →
  w' = add_stdout "❌ Could not find content to crop" w ∨
  ∃ img bbox data,
    (Image_open registry image_path w).1 = Return (Loads img) ∧
    PIL.getbbox true (PIL.convert_RGBA img) = Some bbox ∧
    let cropped := PIL.crop_core bbox (PIL.convert_RGBA img) in
    encodes registry output_path cropped data ∧
    files w' = <[output_path := data]> (files w) ∧
    stdout w'
    = stdout w ++ ["✅ Logo cropped successfully!";
                   "   Original size: " +:+ str_size (PIL.size img);
                   "   Cropped size: " +:+ str_size (PIL.size cropped);
                   "   Saved to: " +:+ output_path].
Proof.
  intros Hrun.
  destruct (Image_open_cases registry image_path w)
    as [(e & Hopen)|[(mode & size & e & Hopen)|(img & Hopen)]].
  - rewrite (Image_open_Raise registry console _ _ _ output_path Hopen) in Hrun.
    discriminate.
  - rewrite (Image_open_Fails registry console _ _ _ _ _ output_path Hopen)
      in Hrun. discriminate.
  - rewrite (crop_whitespace_opened _ _ _ _ _ img) in Hrun by done.
    destruct (PIL.getbbox true (PIL.convert_RGBA img)) as [bbox|] eqn:Hbox.
    + right. cbv zeta in Hrun.
      destruct (Image_save registry _ output_path w) as [[[]|e] w1] eqn:Hsave;
        [|discriminate].
      apply Image_save_inv in Hsave as (Hwrite & data & Henc & ->).
      apply print_all_Return in Hrun as ->.
      exists img, bbox, data. split; [done|]. split; [done|]. cbv zeta.
      by split.
    + left. apply print_all_Return in Hrun as ->. done.
Qed.

(** X13: the file is saved before anything is printed: when standard
    output cannot encode the first line of the report, the run ends with
    the encoding error after the file at [output_path] was replaced by
    the encoded crop, and nothing is printed. *)
Theorem unprintable_report_after_save
    registry console image_path output_path w img bbox data msg :
  (Image_open registry image_path w).1 = Return (Loads img) →
  PIL.getbbox true (PIL.convert_RGBA img) = Some bbox →
  encodes registry output_path
    (PIL.crop_core bbox (PIL.convert_RGBA img)) data →
  writable w output_path = true →
  encode_error console "✅ Logo cropped successfully!" = Some msg →
  crop_whitespace registry console image_path output_path w
  = (Raise (UnicodeEncodeError msg),
     World (<[output_path := data]> (files w)) (readable w) (writable w)
       (stdout w)).
Proof.
  intros Hopen Hbox Henc Hwrite Hmsg.
  rewrite (crop_whitespace_found registry console image_path output_path w
             img bbox data Hopen Hbox Henc Hwrite).
  unfold success_lines. rewrite print_all_cons, bind_unfold.
  unfold print. by rewrite Hmsg.
Qed.

(** ** The further properties on sample files *)

Lemma sample_bbox_padded :
  PIL.getbbox true (PIL.convert_RGBA Sample.padded) = Some (3, 1, 5, 4).
Proof. by vm_compute. Qed.

Lemma sample_crop_padded :
  PIL.crop (PIL.convert_RGBA Sample.padded) (3, 1, 5, 4)
  = inr (PIL.crop_core (3, 1, 5, 4) (PIL.convert_RGBA Sample.padded)).
Proof. by vm_compute. Qed.

Lemma cropped_image_is_tight_witness :
  let cropped := PIL.crop_core (3, 1, 5, 4) (PIL.convert_RGBA Sample.padded) in
  PIL.mode_of cropped = PIL.RGBA ∧
  0 < PIL.width cropped ∧ 0 < PIL.height cropped ∧
  (∃ y a, y < PIL.height cropped ∧
          PIL.alpha_at cropped 0 y = Some a ∧ a ≠ 0%Z) ∧
  (∃ y a, y < PIL.height cropped ∧
          PIL.alpha_at cropped (PIL.width cropped - 1) y = Some a ∧ a ≠ 0%Z) ∧
  (∃ x a, x < PIL.width cropped ∧
          PIL.alpha_at cropped x 0 = Some a ∧ a ≠ 0%Z) ∧
  (∃ x a, x < PIL.width cropped ∧
          PIL.alpha_at cropped x (PIL.height cropped - 1) = Some a ∧ a ≠ 0%Z).
Proof.
  exact (cropped_image_is_tight Sample.padded 3 1 5 4 _
           sample_bbox_padded sample_crop_padded).
Defined.

Lemma content_is_kept_witness :
  let cropped := PIL.crop_core (3, 1, 5, 4) (PIL.convert_RGBA Sample.padded) in
  PIL.alpha_at (PIL.convert_RGBA Sample.padded) 4 3 = Some 255%Z ∧
  3 ≤ 4 < 5 ∧ 1 ≤ 3 < 4 ∧
  PIL.alpha_at cropped (4 - 3) (3 - 1) = Some 255%Z ∧
  PIL.colour_at cropped (4 - 3) (3 - 1)
  = PIL.colour_at (PIL.convert_RGBA Sample.padded) 4 3.
Proof.
  cbv zeta.
  assert (Ha : PIL.alpha_at (PIL.convert_RGBA Sample.padded) 4 3 = Some 255%Z)
    by (vm_compute; reflexivity).
  split; [exact Ha|].
  apply (content_is_kept Sample.padded 3 1 5 4 _ 4 3 255%Z
           sample_bbox_padded sample_crop_padded).
  - vm_compute; lia.
  - vm_compute; lia.
  - exact Ha.
  - discriminate.
Defined.

Lemma second_crop_changes_nothing_witness :
  let cropped := PIL.crop_core (3, 1, 5, 4) (PIL.convert_RGBA Sample.padded) in
  let again := if decide (PIL.mode_of cropped ≠ PIL.RGBA)
               then PIL.convert_RGBA cropped else cropped in
  again = cropped ∧
  PIL.getbbox true again
  = Some (0, 0, PIL.width cropped, PIL.height cropped) ∧
  PIL.crop again (0, 0, PIL.width cropped, PIL.height cropped) = inr cropped.
Proof.
  exact (second_crop_changes_nothing Sample.padded 3 1 5 4 _
           sample_bbox_padded sample_crop_padded).
Defined.


Lemma no_content_iff_fully_transparent_witness :
  let w := Sample.world_only Sample.transparent in
  let transparent :=
    ∀ x y a, x < PIL.width Sample.transparent →
             y < PIL.height Sample.transparent →
             PIL.alpha_at (PIL.convert_RGBA Sample.transparent) x y = Some a →
             a = 0%Z in
  (Image_open Sample.registry "in.raw" w).1 = Return (Loads Sample.transparent) ∧
  (reports_no_content Sample.registry Sample.ascii "in.raw" "out.raw" w →
   transparent) ∧
  (transparent →
   crop_whitespace Sample.registry Sample.ascii "in.raw" "out.raw" w
   = print Sample.ascii "❌ Could not find content to crop" w) ∧
  (reports_no_content Sample.registry Sample.utf8 "in.raw" "out.raw" w ↔
   transparent).
Proof.
  cbv zeta.
  assert (Hopen : (Image_open Sample.registry "in.raw"
                     (Sample.world_only Sample.transparent)).1
                  = Return (Loads Sample.transparent))
    by (vm_compute; reflexivity).
  split; [exact Hopen|].
  destruct (no_content_iff_fully_transparent Sample.registry Sample.ascii
              "in.raw" "out.raw" _ _ Hopen) as (Hback & Hrun & _).
  destruct (no_content_iff_fully_transparent Sample.registry Sample.utf8
              "in.raw" "out.raw" _ _ Hopen) as (_ & _ & Hiff).
  split; [exact Hback|]. split; [exact Hrun|]. apply Hiff. reflexivity.
Defined.

Lemma transparent_margins_are_removed_witness :
  let cropped := PIL.crop_core (3, 1, 5, 4) (PIL.convert_RGBA Sample.padded) in
  3 ≤ 3 ∧ 1 ≤ 1 ∧ 5 ≤ PIL.width Sample.padded - 1 ∧
  4 ≤ PIL.height Sample.padded - 1 ∧
  PIL.width cropped ≤ PIL.width Sample.padded - 3 - 1 ∧
  PIL.height cropped ≤ PIL.height Sample.padded - 1 - 1.
Proof.
  apply (transparent_margins_are_removed Sample.padded 3 1 5 4 _ 3 1 1 1
           sample_bbox_padded sample_crop_padded).
  change (PIL.width Sample.padded) with 6.
  change (PIL.height Sample.padded) with 5.
  intros x y a Hx Hy Hin Ha.
  destruct x as [|[|[|[|[|[|x]]]]]]; [| | | | | |lia];
    (destruct y as [|[|[|[|[|y]]]]]; [| | | | |lia]);
    first [lia | vm_compute in Ha; by simplify_eq].
Defined.

Lemma input_errors_leave_world_witness :
  let missing := Sample.world_of ∅ in
  let unreadable := World {[ "in.raw" := Sample.file_of Sample.padded ]}
                      (λ _, false) (λ _, true) [] in
  let garbage := Sample.world_of {[ "in.raw" := [x00; x01] ]} in
  let cut := Sample.world_of {[ "in.raw" := [x03; x02; x01; xff; x00; x00] ]} in
  crop_whitespace Sample.registry Sample.utf8 "in.raw" "out.raw" missing
  = (Raise (FileNotFoundError "in.raw"), missing) ∧
  crop_whitespace Sample.registry Sample.utf8 "in.raw" "out.raw" unreadable
  = (Raise (PermissionError "in.raw"), unreadable) ∧
  crop_whitespace Sample.registry Sample.utf8 "in.raw" "out.raw" garbage
  = (Raise (UnidentifiedImageError "in.raw"), garbage) ∧
  crop_whitespace Sample.registry Sample.utf8 "in.raw" "out.raw" cut
  = (Raise (OSError "image file is truncated"), cut).
Proof.
  cbv zeta. split; [|split; [|split]].
  - apply (proj1 (input_errors_leave_world Sample.registry Sample.utf8
                    "in.raw" "out.raw" _)).
    reflexivity.
  - apply (proj1 (proj2 (input_errors_leave_world Sample.registry Sample.utf8
                           "in.raw" "out.raw" _))
             (Sample.file_of Sample.padded)); by vm_compute.
  - apply (proj1 (proj2 (proj2 (input_errors_leave_world Sample.registry
                                  Sample.utf8 "in.raw" "out.raw" _)))
             [x00; x01]); by vm_compute.
  - apply (proj2 (proj2 (proj2 (input_errors_leave_world Sample.registry
                                  Sample.utf8 "in.raw" "out.raw" _)))
             [x03; x02; x01; xff; x00; x00] PIL.RGB (2, 1));
      first [by vm_compute | simpl; lia].
Defined.

Lemma refused_save_leaves_world_witness :
  let w := Sample.world_only Sample.padded in
  let locked := Sample.locked w in
  crop_whitespace Sample.registry Sample.utf8 "in.raw" "out.xyz" w
  = (Raise (ValueError "unknown file extension: .xyz"), w) ∧
  crop_whitespace Sample.registry Sample.utf8 "in.raw" "out.psd" w
  = (Raise (KeyError "PSD"), w) ∧
  crop_whitespace Sample.registry Sample.utf8 "in.raw" "in.raw" locked
  = (Raise (PermissionError "in.raw"), locked).
Proof.
  cbv zeta.
  assert (Hopen : (Image_open Sample.registry "in.raw"
                     (Sample.world_only Sample.padded)).1
                  = Return (Loads Sample.padded)) by (vm_compute; reflexivity).
  assert (Hlocked : (Image_open Sample.registry "in.raw"
                       (Sample.locked (Sample.world_only Sample.padded))).1
                    = Return (Loads Sample.padded)) by (vm_compute; reflexivity).
  split; [|split].
  - apply (proj1 (refused_save_leaves_world Sample.registry Sample.utf8
                    "in.raw" "out.xyz" _ _ _ Hopen sample_bbox_padded)).
    by vm_compute.
  - apply (proj1 (proj2 (refused_save_leaves_world Sample.registry Sample.utf8
                           "in.raw" "out.psd" _ _ _ Hopen sample_bbox_padded))
             "PSD"); by vm_compute.
  - apply (proj2 (proj2 (refused_save_leaves_world Sample.registry Sample.utf8
                           "in.raw" "in.raw" _ _ _ Hlocked sample_bbox_padded))
             "RAW" Sample.raw_encode); by vm_compute.
Defined.

Lemma failed_encoder_replaces_output_witness :
  let w := Sample.world_of {[ "logo.jpg" := Sample.file_of Sample.padded ]} in
  ∃ w', crop_whitespace Sample.registry Sample.utf8 "logo.jpg" "logo.jpg" w
        = (Raise (OSError "cannot write mode RGBA as JPEG"), w') ∧
        stdout w' = stdout w ∧
        (is_Some (files w !! "logo.jpg") →
         files w' = <["logo.jpg" := []]> (files w)) ∧
        (files w !! "logo.jpg" = None → files w' = files w) ∧
        ("logo.jpg" = "logo.jpg" → files w' !! "logo.jpg" = Some []).
Proof.
  cbv zeta.
  apply (failed_encoder_replaces_output Sample.registry Sample.utf8
           "logo.jpg" "logo.jpg"
           _ Sample.padded (3, 1, 5, 4) "JPEG" Sample.no_alpha_encode).
  - by vm_compute.
  - exact sample_bbox_padded.
  - by vm_compute.
  - by vm_compute.
  - by vm_compute.
  - reflexivity.
Defined.


Lemma main_frame_witness :
  let w := Sample.world_of {[ input_path := Sample.file_of Sample.padded;
                               "notes.txt" := [x41] ]} in
  files (main Sample.registry Sample.utf8 w).2 !! output_path
  ≠ files w !! output_path ∧
  files (main Sample.registry Sample.utf8 w).2 !! "notes.txt"
  = files w !! "notes.txt".
Proof.
  cbv zeta. split.
  - vm_compute. discriminate.
  - apply main_frame. discriminate.
Defined.

Lemma returned_run_reports_what_it_did_witness :
  let w := Sample.world_with Sample.padded in
  ∃ w', crop_whitespace Sample.registry Sample.utf8 "in.raw" "out.raw" w
        = (Return (), w') ∧
    (w' = add_stdout "❌ Could not find content to crop" w ∨
     ∃ img bbox data,
       (Image_open Sample.registry "in.raw" w).1 = Return (Loads img) ∧
       PIL.getbbox true (PIL.convert_RGBA img) = Some bbox ∧
       let cropped := PIL.crop_core bbox (PIL.convert_RGBA img) in
       encodes Sample.registry "out.raw" cropped data ∧
       files w' = <["out.raw" := data]> (files w) ∧
       stdout w'
       = stdout w ++ ["✅ Logo cropped successfully!";
                      "   Original size: " +:+ str_size (PIL.size img);
                      "   Cropped size: " +:+ str_size (PIL.size cropped);
                      "   Saved to: " +:+ "out.raw"]).
Proof.
  cbv zeta.
  destruct (crop_whitespace Sample.registry Sample.utf8 "in.raw" "out.raw"
              (Sample.world_with Sample.padded)) as [r w'] eqn:Hrun.
  assert (Hr : r = Return ()).
  { apply (f_equal fst) in Hrun. vm_compute in Hrun. congruence. }
  subst r. exists w'. split; [done|].
  exact (returned_run_reports_what_it_did Sample.registry Sample.utf8
           "in.raw" "out.raw" _ _ Hrun).
Defined.

Lemma unprintable_report_after_save_witness :
  let w := Sample.world_with Sample.padded in
  let cropped := PIL.crop_core (3, 1, 5, 4) (PIL.convert_RGBA Sample.padded) in
  files w !! "out.raw" = Some [x00] ∧
  crop_whitespace Sample.registry Sample.ascii "in.raw" "out.raw" w
  = (Raise (UnicodeEncodeError
       "'ascii' codec can't encode characters: ordinal not in range(128)"),
     World (<["out.raw" := Sample.file_of cropped]> (files w))
       (readable w) (writable w) (stdout w)).
Proof.
  cbv zeta. split; [vm_compute; reflexivity|].
  apply (unprintable_report_after_save Sample.registry Sample.ascii
           "in.raw" "out.raw" _ Sample.padded (3, 1, 5, 4)).
  - vm_compute; reflexivity.
  - exact sample_bbox_padded.
  - apply sample_RAW_encodes; vm_compute; reflexivity.
  - reflexivity.
  - vm_compute; reflexivity.
Defined.
